(** * Recital video creator: the synthesis function of [streamlit_app.py]

    A shallow embedding of [create_video_from_audio_and_image] as a
    computation in a state-and-exception monad.  The state holds what the
    function can observe or change: the files on disk, the decoder handles
    that are open, the identifiers drawn from [uuid.uuid4] and the widgets
    sent to the Streamlit page.  What lies outside the function (the
    installed MoviePy, the decoders, signals that interrupt a call) is an
    environment record the computation reads. *)

From Stdlib Require Import ZArith QArith Qround String Ascii Lia Lqa.
From stdpp Require Import base option gmap strings list pretty.

Local Open Scope Z_scope.
Local Open Scope string_scope.

(** ** Python exceptions *)

(** The classes the function can meet.  The first four derive from
    [Exception]; [KeyboardInterrupt] and [SystemExit] derive from
    [BaseException] only. *)
Inductive exn_class :=
  | AttributeError
  | OSError
  | ValueError
  | RuntimeError
  | KeyboardInterrupt
  | SystemExit.

Record exn := Exn { exn_cls : exn_class; exn_msg : string }.

(** [isinstance(e, Exception)] *)
Definition is_Exception (e : exn) : bool :=
  match exn_cls e with
  | KeyboardInterrupt | SystemExit => false
  | _ => true
  end.

(** [isinstance(e, AttributeError)] *)
Definition is_AttributeError (e : exn) : bool :=
  match exn_cls e with
  | AttributeError => true
  | _ => false
  end.

(** [str(e)] *)
Definition str (e : exn) : string := exn_msg e.

(** ** Clips, encode requests and files *)

(** Durations are Python floats in the source; they are rationals here. *)
Record AudioClip := {
  audio_handle : nat;
  audio_filename : string;
  audio_duration : Q
}.

(** What a video clip shows: a still image read from a file, or another
    picture scaled to a new size.  The source calls no other effect. *)
Inductive picture :=
  | Still (filename : string) (w h : Z)
  | Scaled (p : picture) (w h : Z).

Definition picture_size (p : picture) : Z * Z :=
  match p with
  | Still _ w h => (w, h)
  | Scaled _ w h => (w, h)
  end.

Record VideoClip := {
  clip_handle : nat;
  clip_picture : picture;
  clip_duration : Q;
  clip_audio : option AudioClip
}.

Definition clip_size (c : VideoClip) : Z * Z := picture_size (clip_picture c).

(** The arguments of one [write_videofile] call. *)
Record encode_request := {
  enc_clip : VideoClip;
  enc_filename : string;
  enc_fps : Z;
  enc_codec : string;
  enc_audio_codec : string;
  enc_temp_audiofile : string;
  enc_remove_temp : bool
}.

(** A file is its bytes. *)
Definition file : Type := list Byte.byte.

(** ** The page *)

Inductive ui_event :=
  | Spinner (text : string)
  | ErrorBox (text : string).

(** ** State and environment *)

Record State := {
  fs : gmap string file;
  open_handles : gset nat;
  next_handle : nat;
  uuid_drawn : nat;
  ui : list ui_event
}.

(** The external calls of the function, in source order. *)
Inductive site :=
  | AtSpinner
  | AtAudioFileClip
  | AtImageClip
  | AtResize
  | AtSetAudio
  | AtWrite
  | AtCloseAudio
  | AtCloseImage
  | AtCloseFinal
  | AtStError.

Record Env := {
  (** [tempfile.gettempdir()] *)
  tempdir : string;
  (** the successive values of [str(uuid.uuid4())] *)
  uuid_stream : nat -> string;
  (** MoviePy 2.0 or later is installed: clips have [resized] and
      [with_audio]; otherwise they have [resize] and [set_audio] *)
  moviepy2 : bool;
  (** the audio decoder: the duration of a readable audio file *)
  probe_audio : file -> option Q;
  (** the image decoder: width and height of a readable image *)
  probe_image : file -> option (Z * Z);
  (** the bytes the encoder writes for a request, and the bytes of the
      audio buffer file it muxes from *)
  encoder : encode_request -> file;
  mux_buffer : AudioClip -> file;
  (** an exception that interrupts the call at a site: a signal, a full
      disk, an encoder that is not installed *)
  fault : site -> option exn;
  (** what a failing [write_videofile] had already written of the output,
      if it had started it *)
  partial_output : option file
}.

(** ** The monad *)

Inductive res (A : Type) :=
  | Ret (a : A)
  | Raise (e : exn).
Arguments Ret {A} a.
Arguments Raise {A} e.

Definition M (A : Type) : Type := State -> res A * State.

Definition ret {A} (a : A) : M A := fun s => (Ret a, s).

Definition raise {A} (e : exn) : M A := fun s => (Raise e, s).

Definition bind {A B} (m : M A) (k : A -> M B) : M B :=
  fun s =>
    match m s with
    | (Ret a, s') => k a s'
    | (Raise e, s') => (Raise e, s')
    end.

(** [try: body  except <class> as e: handler e]; what [body] did to the
    state before it raised stays done. *)
Definition try_except {A} (body : M A) (catches : exn -> bool)
    (handler : exn -> M A) : M A :=
  fun s =>
    match body s with
    | (Ret a, s') => (Ret a, s')
    | (Raise e, s') => if catches e then handler e s' else (Raise e, s')
    end.

Declare Scope py_scope.
Delimit Scope py_scope with py.
Notation "x <- m ;; k" := (bind m (fun x => k))
  (at level 100, m at next level, right associativity) : py_scope.
Notation "m ;;; k" := (bind m (fun _ => k))
  (at level 100, right associativity) : py_scope.

Local Open Scope py_scope.

(** ** State updates *)

Definition set_fs (f : gmap string file -> gmap string file) (s : State) : State :=
  {| fs := f (fs s); open_handles := open_handles s;
     next_handle := next_handle s; uuid_drawn := uuid_drawn s; ui := ui s |}.

Definition set_ui (f : list ui_event -> list ui_event) (s : State) : State :=
  {| fs := fs s; open_handles := open_handles s;
     next_handle := next_handle s; uuid_drawn := uuid_drawn s; ui := f (ui s) |}.

(** A new handle is opened under the next free number. *)
Definition open_handle (s : State) : State :=
  {| fs := fs s; open_handles := {[ next_handle s ]} ∪ open_handles s;
     next_handle := S (next_handle s); uuid_drawn := uuid_drawn s; ui := ui s |}.

Definition release_handle (h : nat) (s : State) : State :=
  {| fs := fs s; open_handles := open_handles s ∖ {[ h ]};
     next_handle := next_handle s; uuid_drawn := uuid_drawn s; ui := ui s |}.

Definition draw_uuid (s : State) : State :=
  {| fs := fs s; open_handles := open_handles s;
     next_handle := next_handle s; uuid_drawn := S (uuid_drawn s); ui := ui s |}.

(** ** [os.path.join] (posixpath, two arguments) *)

Definition startswith_sep (b : string) : bool :=
  match b with
  | String c _ => Ascii.eqb c "/"
  | EmptyString => false
  end.

Fixpoint endswith_sep (a : string) : bool :=
  match a with
  | EmptyString => false
  | String c EmptyString => Ascii.eqb c "/"
  | String _ r => endswith_sep r
  end.

Definition os_path_join (a b : string) : string :=
  if startswith_sep b then b
  else if String.eqb a "" || endswith_sep a then a ++ b
  else a ++ "/" ++ b.

(** ** Frame geometry *)

(** Modelled from the spec: the resize effect of MoviePy, which is not part
    of the repository.  The spec has the width "computed from the original
    aspect ratio, rounded to the nearest even integer": [round_even n d] is
    the even integer nearest to [n / d], the upper one on a tie. *)
Definition round_even (n d : Z) : Z := 2 * ((n + d) / (2 * d)).

(** Modelled from the spec: scaling to a target height keeps the picture
    whole, sets the height to the target and derives the width. *)
Definition fx_resize (c : VideoClip) (height : Z) : VideoClip :=
  let '(w, h) := clip_size c in
  {| clip_handle := clip_handle c;
     clip_picture := Scaled (clip_picture c) (round_even (w * height) h) height;
     clip_duration := clip_duration c;
     clip_audio := clip_audio c |}.

(** ** The frames of the output *)

(** Modelled from the spec: the frames [write_videofile] of MoviePy writes,
    which is not part of the repository.  The spec has the frame "held
    constant for audio.duration seconds", encoded "at a fixed frame rate of
    24 frames/second", and the output last as the audio "within one frame
    interval".  The frames of a clip stand at the times [0, 1/fps, 2/fps,
    ...]: MoviePy 2 writes the first [int(duration * fps)] of them, MoviePy
    1 those at a time below the duration. *)
Definition frames_written (v2 : bool) (r : encode_request) : Z :=
  let n := (clip_duration (enc_clip r) * inject_Z (enc_fps r))%Q in
  Z.max 0 (if v2 then Qfloor n else Qceiling n).

(** Modelled from the spec: a reader of encoded files, as a player is one.
    It reads the files of the encoder of [E] when it finds in each of them
    the frames that were written for its request. *)
Definition reads_back (E : Env) (frames_in : file -> option Z) : Prop :=
  forall r, frames_in (encoder E r) = Some (frames_written (moviepy2 E) r).

(** ** The calls the function makes *)

Section Pipeline.

Variable E : Env.

(** An external call is interrupted when the environment says so. *)
Definition interrupt (at_ : site) : M unit :=
  fun s =>
    match fault E at_ with
    | Some e => (Raise e, s)
    | None => (Ret tt, s)
    end.

(** [st.spinner(text)], entered by [with]; leaving it changes nothing and
    lets an exception of the body through. *)
Definition st_spinner (text : string) : M unit :=
  interrupt AtSpinner ;;;
  fun s => (Ret tt, set_ui (fun l => (l ++ [Spinner text])%list) s).

(** [st.error(text)] *)
Definition st_error (text : string) : M unit :=
  interrupt AtStError ;;;
  fun s => (Ret tt, set_ui (fun l => (l ++ [ErrorBox text])%list) s).

(** [AudioFileClip(filename)]: opens a reader on the file and learns its
    duration; raises when the file is missing or cannot be decoded. *)
Definition AudioFileClip (filename : string) : M AudioClip :=
  interrupt AtAudioFileClip ;;;
  fun s =>
    match fs s !! filename with
    | Some data =>
        match probe_audio E data with
        | Some d =>
            (Ret {| audio_handle := next_handle s;
                    audio_filename := filename;
                    audio_duration := d |},
             open_handle s)
        | None =>
            (Raise (Exn OSError ("MoviePy error: failed to read the duration of file " ++ filename)), s)
        end
    | None =>
        (Raise (Exn OSError ("MoviePy error: the file " ++ filename ++ " could not be found")), s)
    end.

(** [ImageClip(filename, duration=duration)] *)
Definition ImageClip (filename : string) (duration : Q) : M VideoClip :=
  interrupt AtImageClip ;;;
  fun s =>
    match fs s !! filename with
    | Some data =>
        match probe_image E data with
        | Some (w, h) =>
            (Ret {| clip_handle := next_handle s;
                    clip_picture := Still filename w h;
                    clip_duration := duration;
                    clip_audio := None |},
             open_handle s)
        | None =>
            (Raise (Exn ValueError ("Could not find a format to read the specified file " ++ filename)), s)
        end
    | None =>
        (Raise (Exn OSError ("No such file: " ++ filename)), s)
    end.

Definition no_attribute (name : string) : exn :=
  Exn AttributeError ("'ImageClip' object has no attribute '" ++ name ++ "'").

(** [clip.resized(height=height)], a method of MoviePy 2 only *)
Definition resized (c : VideoClip) (height : Z) : M VideoClip :=
  if moviepy2 E then interrupt AtResize ;;; ret (fx_resize c height)
  else raise (no_attribute "resized").

(** [clip.resize(height=height)], a method of MoviePy 1 only *)
Definition resize (c : VideoClip) (height : Z) : M VideoClip :=
  if moviepy2 E then raise (no_attribute "resize")
  else interrupt AtResize ;;; ret (fx_resize c height).

(** Attaching the audio makes the composed timeline, a clip of its own. *)
Definition fx_set_audio (c : VideoClip) (a : AudioClip) : M VideoClip :=
  fun s =>
    (Ret {| clip_handle := next_handle s;
            clip_picture := clip_picture c;
            clip_duration := clip_duration c;
            clip_audio := Some a |},
     open_handle s).

(** [clip.with_audio(a)], a method of MoviePy 2 only *)
Definition with_audio (c : VideoClip) (a : AudioClip) : M VideoClip :=
  if moviepy2 E then interrupt AtSetAudio ;;; fx_set_audio c a
  else raise (no_attribute "with_audio").

(** [clip.set_audio(a)], a method of MoviePy 1 only *)
Definition set_audio (c : VideoClip) (a : AudioClip) : M VideoClip :=
  if moviepy2 E then raise (no_attribute "set_audio")
  else interrupt AtSetAudio ;;; fx_set_audio c a.

(** [tempfile.gettempdir()] *)
Definition gettempdir : M string := ret (tempdir E).

(** [str(uuid.uuid4())] *)
Definition uuid4 : M string :=
  fun s => (Ret (uuid_stream E (uuid_drawn s)), draw_uuid s).

(** [clip.close()] *)
Definition close (at_ : site) (h : nat) : M unit :=
  interrupt at_ ;;;
  fun s => (Ret tt, release_handle h s).

(** The error of [write_videofile] for a clip that lasts no time. *)
Definition nothing_to_encode (filename : string) : exn :=
  Exn OSError ("MoviePy error: no frame to write to " ++ filename).

(** Modelled from the spec: [write_videofile] of MoviePy, which is not part
    of the repository.  The audio of the clip goes to the buffer file, the
    encoder writes the output file (all of it, or what it had written when
    it was interrupted), and with [remove_temp] the buffer file "is removed
    after encoding regardless of outcome".  The spec has "AudioSource.duration
    > 0 before timeline construction" and counts "zero-duration audio" among
    the inputs that fail; the source makes no such test before it builds the
    timeline, so the failure is this call's: a clip that lasts no time is
    refused before anything of the output is written.  The spec names no
    message for it. *)
Definition write_videofile (c : VideoClip) (filename : string) (fps : Z)
    (codec audio_codec temp_audiofile : string) (remove_temp : bool) : M unit :=
  fun s =>
    let r := {| enc_clip := c; enc_filename := filename; enc_fps := fps;
                enc_codec := codec; enc_audio_codec := audio_codec;
                enc_temp_audiofile := temp_audiofile;
                enc_remove_temp := remove_temp |} in
    let buffered m :=
      match clip_audio c with
      | Some a => <[temp_audiofile := mux_buffer E a]> m
      | None => m
      end in
    let cleaned m := if remove_temp then delete temp_audiofile m else m in
    if Qle_bool (clip_duration c) 0 then
      (Raise (nothing_to_encode filename), set_fs (fun m => cleaned (buffered m)) s)
    else
      match fault E AtWrite with
      | None =>
          (Ret tt, set_fs (fun m => cleaned (<[filename := encoder E r]> (buffered m))) s)
      | Some e =>
          let written m :=
            match partial_output E with
            | Some part => <[filename := part]> m
            | None => m
            end in
          (Raise e, set_fs (fun m => cleaned (written (buffered m))) s)
      end.

(** ** The function *)

(** The block under [try:], source lines 25 to 68.  The result [None] of
    Python is [None] here, a returned path is [Some]. *)
Definition try_block (audio_path image_path : string) : M (option string) :=
  st_spinner "🎬 Creating your video... This may take a few minutes." ;;;
  audio_clip <- AudioFileClip audio_path ;;
  image_clip <- ImageClip image_path (audio_duration audio_clip) ;;
  image_clip <- try_except (resized image_clip 1080) is_AttributeError
                  (fun _ => resize image_clip 1080) ;;
  final_video <- try_except (with_audio image_clip audio_clip) is_AttributeError
                   (fun _ => set_audio image_clip audio_clip) ;;
  tmp <- gettempdir ;;
  u <- uuid4 ;;
  let output_path := os_path_join tmp ("video_" ++ u ++ ".mp4") in
  u' <- uuid4 ;;
  write_videofile final_video output_path 24 "libx264" "aac"
    ("temp-audio-" ++ u' ++ ".m4a") true ;;;
  close AtCloseAudio (audio_handle audio_clip) ;;;
  close AtCloseImage (clip_handle image_clip) ;;;
  close AtCloseFinal (clip_handle final_video) ;;;
  ret (Some output_path).

(** [create_video_from_audio_and_image(audio_path, image_path)] *)
Definition create_video_from_audio_and_image (audio_path image_path : string)
    : M (option string) :=
  try_except (try_block audio_path image_path) is_Exception
    (fun e =>
       st_error ("Video creation failed: " ++ str e) ;;;
       ret None).

End Pipeline.

(** The names one call generates, as functions of the state it starts in. *)
Definition output_path_of (E : Env) (s : State) : string :=
  os_path_join (tempdir E) ("video_" ++ uuid_stream E (uuid_drawn s) ++ ".mp4").

Definition temp_audiofile_of (E : Env) (s : State) : string :=
  "temp-audio-" ++ uuid_stream E (S (uuid_drawn s)) ++ ".m4a".

(** Joining a directory and a relative name prepends a prefix that
    depends on the directory alone. *)
Definition dir_prefix (a : string) : string :=
  if String.eqb a "" || endswith_sep a then a else a ++ "/".

(** * What a run that reaches [return output_path] has done *)

Definition spinner_text : string :=
  "🎬 Creating your video... This may take a few minutes.".

Definition audio_clip_of (s : State) (audio_path : string) (d : Q) : AudioClip :=
  {| audio_handle := next_handle s;
     audio_filename := audio_path;
     audio_duration := d |}.

Definition image_clip_of (s : State) (image_path : string) (d : Q) (w h : Z)
    : VideoClip :=
  {| clip_handle := S (next_handle s);
     clip_picture := Still image_path w h;
     clip_duration := d;
     clip_audio := None |}.

Definition final_video_of (s : State) (audio_path image_path : string)
    (d : Q) (w h : Z) : VideoClip :=
  {| clip_handle := S (S (next_handle s));
     clip_picture := clip_picture (fx_resize (image_clip_of s image_path d w h) 1080);
     clip_duration := d;
     clip_audio := Some (audio_clip_of s audio_path d) |}.

Definition request_of (E : Env) (s : State) (audio_path image_path : string)
    (d : Q) (w h : Z) : encode_request :=
  {| enc_clip := final_video_of s audio_path image_path d w h;
     enc_filename := output_path_of E s;
     enc_fps := 24;
     enc_codec := "libx264";
     enc_audio_codec := "aac";
     enc_temp_audiofile := temp_audiofile_of E s;
     enc_remove_temp := true |}.

(** The state in which the function returns the output path. *)
Definition state_at_return (E : Env) (s : State) (audio_path image_path : string)
    (d : Q) (w h : Z) : State :=
  {| fs :=
       delete (temp_audiofile_of E s)
         (<[output_path_of E s := encoder E (request_of E s audio_path image_path d w h)]>
            (<[temp_audiofile_of E s := mux_buffer E (audio_clip_of s audio_path d)]> (fs s)));
     open_handles :=
       (({[ S (S (next_handle s)) ]} ∪ ({[ S (next_handle s) ]} ∪ ({[ next_handle s ]} ∪ open_handles s)))
          ∖ {[ next_handle s ]} ∖ {[ S (next_handle s) ]}) ∖ {[ S (S (next_handle s)) ]};
     next_handle := S (S (S (next_handle s)));
     uuid_drawn := S (S (uuid_drawn s));
     ui := (ui s ++ [Spinner spinner_text])%list |}.

(** The inputs decode: the audio to a duration, the image to a size. *)
Definition decodes (E : Env) (s : State) (audio_path image_path : string)
    (d : Q) (w h : Z) : Prop :=
  (exists data, fs s !! audio_path = Some data /\ probe_audio E data = Some d) /\
  (exists data, fs s !! image_path = Some data /\ probe_image E data = Some (w, h)).

(** No call of the [try] block is interrupted. *)
Definition uninterrupted (E : Env) : Prop :=
  forall a, a <> AtStError -> fault E a = None.

Ltac unfold_calls :=
  cbv [create_video_from_audio_and_image try_block st_spinner st_error
       AudioFileClip ImageClip resized resize with_audio set_audio
       fx_set_audio gettempdir uuid4 close write_videofile interrupt
       bind ret raise try_except].

Ltac case_step :=
  match goal with
  | |- context [match fault ?E ?a with _ => _ end] =>
      let H := fresh "Hfault" in destruct (fault E a) eqn:H
  | |- context [match fs ?s !! ?k with _ => _ end] =>
      let H := fresh "Hfile" in destruct (fs s !! k) eqn:H
  | |- context [match probe_audio ?E ?x with _ => _ end] =>
      let H := fresh "Haudio" in destruct (probe_audio E x) eqn:H
  | |- context [match probe_image ?E ?x with _ => _ end] =>
      let H := fresh "Himage" in destruct (probe_image E x) as [[? ?]|] eqn:H
  | |- context [if moviepy2 ?E then _ else _] =>
      let H := fresh "Hapi" in destruct (moviepy2 E) eqn:H
  | |- context [if is_AttributeError ?e then _ else _] =>
      let H := fresh "Hattr" in destruct (is_AttributeError e) eqn:H
  | |- context [if is_Exception ?e then _ else _] =>
      let H := fresh "Hexn" in destruct (is_Exception e) eqn:H
  | |- context [if Qle_bool ?d 0 then _ else _] =>
      let H := fresh "Hlasts" in destruct (Qle_bool d 0) eqn:H
  end; cbn beta iota.

(** ** Sample worlds *)

#[global] Instance site_eq_dec : EqDecision site.
Proof. solve_decision. Defined.

Fixpoint bytes_eqb (a b : file) : bool :=
  match a, b with
  | [], [] => true
  | x :: a', y :: b' => Byte.eqb x y && bytes_eqb a' b'
  | _, _ => false
  end.

(** A ten-second recording, a recording without samples, an 800 by 600
    picture; the magic numbers stand for the whole files. *)
Definition wav_bytes : file := [Byte.x52; Byte.x49; Byte.x46; Byte.x46; Byte.x0a].
Definition empty_wav_bytes : file := [Byte.x52; Byte.x49; Byte.x46; Byte.x46; Byte.x00].
Definition png_bytes : file := [Byte.x89; Byte.x50; Byte.x4e; Byte.x47].
Definition mp4_bytes : file := [Byte.x66; Byte.x74; Byte.x79; Byte.x70].
Definition cut_mp4_bytes : file := [Byte.x66; Byte.x74].
Definition m4a_bytes : file := [Byte.x4d; Byte.x34; Byte.x41].

Definition sample_uuids (n : nat) : string :=
  match n with
  | 0%nat => "6fa1c2d0-5b7e-4c11-9a3e-0f2d4b6c8e10"
  | 1%nat => "b3e8f7a2-1c4d-4e9f-8a6b-7d5c3e1f0a92"
  | 2%nat => "0d9c8b7a-6f5e-4d3c-a2b1-c0ffee123456"
  | _ => "e2a4c6e8-0b1d-4f3a-b5c7-d9e1f3a5b7c9"
  end.

(** MoviePy 2, working decoders and encoder, no interruption. *)
Definition sample_env : Env :=
  {| tempdir := "/tmp";
     uuid_stream := sample_uuids;
     moviepy2 := true;
     probe_audio := fun data =>
       if bytes_eqb data wav_bytes then Some (10 # 1)
       else if bytes_eqb data empty_wav_bytes then Some (0 # 1)
       else None;
     probe_image := fun data =>
       if bytes_eqb data png_bytes then Some (800, 600) else None;
     encoder := fun _ => mp4_bytes;
     mux_buffer := fun _ => m4a_bytes;
     fault := fun _ => None;
     partial_output := None |}.

(** The same world on MoviePy 1. *)
Definition sample_env_v1 : Env :=
  {| tempdir := tempdir sample_env;
     uuid_stream := uuid_stream sample_env;
     moviepy2 := false;
     probe_audio := probe_audio sample_env;
     probe_image := probe_image sample_env;
     encoder := encoder sample_env;
     mux_buffer := mux_buffer sample_env;
     fault := fault sample_env;
     partial_output := partial_output sample_env |}.

(** An encoder that writes a header and one byte for each frame, and the
    reader of its files. *)
Definition framed_encoder (v2 : bool) (r : encode_request) : file :=
  (mp4_bytes ++ repeat Byte.x00 (Z.to_nat (frames_written v2 r)))%list.

Definition frames_in_framed (data : file) : option Z :=
  Some (Z.of_nat (length data) - 4).

(** MoviePy 2 with that encoder; the recording lasts 10.03 seconds. *)
Definition framed_env : Env :=
  {| tempdir := "/tmp";
     uuid_stream := sample_uuids;
     moviepy2 := true;
     probe_audio := fun data =>
       if bytes_eqb data wav_bytes then Some (1003 # 100) else None;
     probe_image := fun data =>
       if bytes_eqb data png_bytes then Some (800, 600) else None;
     encoder := framed_encoder true;
     mux_buffer := fun _ => m4a_bytes;
     fault := fun _ => None;
     partial_output := None |}.

(** A world in which the call at one site raises [e]; [part] is what a
    failing encoder leaves of the output. *)
Definition interrupted (at_ : site) (e : exn) (part : option file) (E : Env) : Env :=
  {| tempdir := tempdir E;
     uuid_stream := uuid_stream E;
     moviepy2 := moviepy2 E;
     probe_audio := probe_audio E;
     probe_image := probe_image E;
     encoder := encoder E;
     mux_buffer := mux_buffer E;
     fault := fun a => if decide (a = at_) then Some e else fault E a;
     partial_output := part |}.

Definition disk_full : exn := Exn OSError "[Errno 28] No space left on device".

Definition sample_files : gmap string file :=
  <["/tmp/audio_recital.wav" := wav_bytes]>
    (<["/tmp/audio_silence.wav" := empty_wav_bytes]>
       (<["/tmp/audio_broken.wav" := []]>
          (<["/tmp/uploaded_image_cover.png" := png_bytes]>
             (<["/tmp/uploaded_image_notes.txt" := m4a_bytes]> ∅)))).

Definition sample_audio : string := "/tmp/audio_recital.wav".
Definition sample_image : string := "/tmp/uploaded_image_cover.png".
Definition sample_output : string :=
  "/tmp/video_6fa1c2d0-5b7e-4c11-9a3e-0f2d4b6c8e10.mp4".

Definition sample_state : State :=
  {| fs := sample_files; open_handles := ∅; next_handle := 0;
     uuid_drawn := 0; ui := [] |}.

(** The encoder finds the disk full after it has started the output. *)
Definition full_disk_env : Env :=
  interrupted AtWrite disk_full (Some cut_mp4_bytes) sample_env.

(** The user interrupts the encoder. *)
Definition ctrl_c_env : Env :=
  interrupted AtWrite (Exn KeyboardInterrupt "") None sample_env.

(** ** The page function [main] *)

(** What [st.file_uploader] returns for a file the user has chosen. *)
Record UploadedFile := {
  upload_name : string;
  upload_bytes : file
}.

(** The widgets [main] draws.  An image is shown from an uploaded file or
    from a path. *)
Inductive widget :=
  | Title (text : string)
  | Markdown (text : string)
  | FileUploader (label : string) (types : list string) (help : string)
  | AudioPlayer (data : file) (format : string)
  | Success (text : string)
  | ImageOfUpload (data : file) (caption : string)
  | ImageOfPath (path : string) (caption : string)
  | Button (label : string) (disabled : bool)
  | DownloadButton (label : string) (data : file) (file_name mime : string)
  | VideoPlayer (path : string)
  | ErrorText (text : string).

(** The file system calls of [main]. *)
Inductive os_site :=
  | AtWriteImage
  | AtWriteAudio
  | AtReadVideo
  | AtRemoveAudio
  | AtRemoveVideo.

(** One run of the script: what the user has uploaded and pressed, the
    clock, and the file system calls that fail. *)
Record Session := {
  uploaded_audio : option UploadedFile;
  uploaded_image : option UploadedFile;
  (** what [st.button] returns; Streamlit reports no click for a disabled
      button, the model does not rely on it *)
  clicked : bool;
  (** [int(time.time())] *)
  now : Z;
  os_fault : os_site -> option exn
}.

(** The state of [main]: the state of the synthesis function and the
    widgets drawn so far. *)
Record Page := {
  core : State;
  widgets : list widget
}.

Definition P (A : Type) : Type := Page -> res A * Page.

Definition retP {A} (a : A) : P A := fun pg => (Ret a, pg).

Definition bindP {A B} (m : P A) (k : A -> P B) : P B :=
  fun pg =>
    match m pg with
    | (Ret a, pg') => k a pg'
    | (Raise e, pg') => (Raise e, pg')
    end.

(** [try: body  except: handler], a bare [except], which catches all. *)
Definition try_except_all {A} (body : P A) (handler : P A) : P A :=
  fun pg =>
    match body pg with
    | (Ret a, pg') => (Ret a, pg')
    | (Raise _, pg') => handler pg'
    end.

(** A computation of the synthesis function, run from [main]. *)
Definition lift {A} (m : M A) : P A :=
  fun pg =>
    match m (core pg) with
    | (r, s') => (r, {| core := s'; widgets := widgets pg |})
    end.

Declare Scope page_scope.
Delimit Scope page_scope with page.
Notation "x <- m ;; k" := (bindP m (fun x => k))
  (at level 100, m at next level, right associativity) : page_scope.
Notation "m ;;; k" := (bindP m (fun _ => k))
  (at level 100, right associativity) : page_scope.

Local Open Scope page_scope.

(** A widget call draws on the page. *)
Definition draw (w : widget) : P unit :=
  fun pg => (Ret tt, {| core := core pg; widgets := (widgets pg ++ [w])%list |}).

Definition no_such_file (path : string) : exn :=
  Exn OSError ("[Errno 2] No such file or directory: '" ++ path ++ "'").

(** The truth value of a path or [None], as [if x:] has it. *)
Definition path_truthy (p : option string) : bool :=
  match p with
  | Some path => negb (String.eqb path "")
  | None => false
  end.

Section Main.

Variable E : Env.
Variable U : Session.

Definition os_interrupt (at_ : os_site) : P unit :=
  fun pg =>
    match os_fault U at_ with
    | Some e => (Raise e, pg)
    | None => (Ret tt, pg)
    end.

(** [with open(path, "wb") as f: f.write(data)] *)
Definition write_file (at_ : os_site) (path : string) (data : file) : P unit :=
  os_interrupt at_ ;;;
  lift (fun s => (Ret tt, set_fs (fun m => <[path := data]> m) s)).

(** [with open(path, "rb") as f: f.read()] *)
Definition read_file (at_ : os_site) (path : string) : P file :=
  os_interrupt at_ ;;;
  lift (fun s =>
          match fs s !! path with
          | Some data => (Ret data, s)
          | None => (Raise (no_such_file path), s)
          end).

(** [os.remove(path)] *)
Definition os_remove (at_ : os_site) (path : string) : P unit :=
  os_interrupt at_ ;;;
  lift (fun s =>
          match fs s !! path with
          | Some _ => (Ret tt, set_fs (fun m => delete path m) s)
          | None => (Raise (no_such_file path), s)
          end).

(** [st.file_uploader(label, type=types, help=help)] *)
Definition st_file_uploader (label : string) (types : list string) (help : string)
    (chosen : option UploadedFile) : P (option UploadedFile) :=
  draw (FileUploader label types help) ;;;
  retP chosen.

(** [st.button(label, type="primary", disabled=disabled)] *)
Definition st_button (label : string) (disabled : bool) : P bool :=
  draw (Button label disabled) ;;;
  retP (clicked U).

Definition tips_text : string :=
  "
    - **Audio**: Any format works - WhatsApp voice messages, recordings from phone, etc.
    - **Image descriptions**: Be specific about mood, setting, colors, and style
    - **Processing time**: Usually takes 2-3 minutes depending on audio length
    - **Video quality**: Output is Full HD (1920x1080) MP4 format
    ".

Definition privacy_text : string :=
  "
    - Your Facebook credentials are only used for this session
    - No credentials or files are permanently stored
    - Audio and images are processed temporarily and automatically deleted
    - Videos are only available for download during your session
    ".

(** Source lines 148 to 154, under the comment "Cleanup temporary
    files": both removals in one [try], with a bare [except: pass]. *)
Definition cleanup_temporary_files (audio_path video_path : string) : P unit :=
  try_except_all
    (os_remove AtRemoveAudio audio_path ;;;
     os_remove AtRemoveVideo video_path)
    (retP tt).

(** [main()] *)
Definition main : P unit :=
  draw (Title "🎵 Recital Video Creator") ;;;
  draw (Markdown "*Transform your audio recordings into beautiful videos with your own images*") ;;;
  draw (Markdown "### 🎤 Create Your Video") ;;;
  uploaded_audio <- st_file_uploader "Upload your audio recording"
                      ["mp3"; "wav"; "ogg"; "m4a"; "aac"; "opus"]
                      "Support formats: MP3, WAV, OGG, M4A, AAC, OPUS (from WhatsApp, voice recorder, etc.)"
                      (uploaded_audio U) ;;
  match uploaded_audio with
  | Some a =>
      draw (AudioPlayer (upload_bytes a) "audio/wav") ;;;
      draw (Success ("✅ Audio uploaded: " ++ upload_name a))
  | None => retP tt
  end ;;;
  draw (Markdown "### 🖼️ Upload Your Image") ;;;
  uploaded_image <- st_file_uploader "Choose an image file"
                      ["png"; "jpg"; "jpeg"; "gif"; "bmp"; "webp"]
                      "Supported formats: PNG, JPG, JPEG, GIF, BMP, WEBP"
                      (uploaded_image U) ;;
  image_path_ready <-
    match uploaded_image with
    | Some i =>
        draw (ImageOfUpload (upload_bytes i) "Uploaded Image Preview") ;;;
        tmp <- lift (gettempdir E) ;;
        u <- lift (uuid4 E) ;;
        let temp_img_path :=
          os_path_join tmp ("uploaded_image_" ++ u ++ "_" ++ upload_name i) in
        write_file AtWriteImage temp_img_path (upload_bytes i) ;;;
        retP (Some temp_img_path)
    | None => retP None
    end ;;
  let can_generate :=
    match uploaded_audio, uploaded_image with
    | Some _, Some _ => true
    | _, _ => false
    end in
  pressed <- st_button "🎬 Create My Video" (negb can_generate) ;;
  (if pressed then
     match uploaded_audio, uploaded_image with
     | Some a, Some _ =>
         tmp <- lift (gettempdir E) ;;
         u <- lift (uuid4 E) ;;
         let audio_path := os_path_join tmp ("audio_" ++ u ++ "_" ++ upload_name a) in
         write_file AtWriteAudio audio_path (upload_bytes a) ;;;
         let final_image_path := image_path_ready in
         match final_image_path with
         | Some image_path =>
             if path_truthy final_image_path then
               draw (ImageOfPath image_path "Image for Video") ;;;
               video_path <- lift (create_video_from_audio_and_image E audio_path image_path) ;;
               match video_path with
               | Some video =>
                   if path_truthy video_path then
                     draw (Success "🎉 Video created successfully!") ;;;
                     data <- read_file AtReadVideo video ;;
                     draw (DownloadButton "📥 Download Video (MP4)" data
                             ("recital_video_" ++ pretty (now U) ++ ".mp4") "video/mp4") ;;;
                     draw (VideoPlayer video) ;;;
                     cleanup_temporary_files audio_path video
                   else retP tt
               | None => retP tt
               end
             else retP tt
         | None => retP tt
         end
     | _, _ =>
         let missing :=
           ((if uploaded_audio is None then ["audio file"] else [])
              ++ (if uploaded_image is None then ["image file"] else []))%list in
         draw (ErrorText ("Please provide: " ++ String.concat ", " missing))
     end
   else retP tt) ;;;
  draw (Markdown "---") ;;;
  draw (Markdown "### 💡 Tips for better results:") ;;;
  draw (Markdown tips_text) ;;;
  draw (Markdown "### 🔒 Privacy & Security:") ;;;
  draw (Markdown privacy_text).

End Main.

Local Close Scope page_scope.

(** The names [main] gives the files it writes, as functions of the state
    it starts in; the image is saved first. *)
Definition image_temp_path (E : Env) (s : State) (i : UploadedFile) : string :=
  os_path_join (tempdir E)
    ("uploaded_image_" ++ uuid_stream E (uuid_drawn s) ++ "_" ++ upload_name i).

Definition audio_temp_path (E : Env) (s : State) (a : UploadedFile) : string :=
  os_path_join (tempdir E)
    ("audio_" ++ uuid_stream E (S (uuid_drawn s)) ++ "_" ++ upload_name a).

(** The state in which [main] calls the synthesis function. *)
Definition state_at_call (E : Env) (s : State) (a i : UploadedFile) : State :=
  set_fs (fun m => <[audio_temp_path E s a := upload_bytes a]> m)
    (draw_uuid
       (set_fs (fun m => <[image_temp_path E s i := upload_bytes i]> m)
          (draw_uuid s))).

(** No file system call of [main] fails. *)
Definition os_calls_succeed (U : Session) : Prop :=
  forall a, os_fault U a = None.

(** The world [E] with MoviePy 2 installed or not. *)
Definition with_moviepy2 (b : bool) (E : Env) : Env :=
  {| tempdir := tempdir E;
     uuid_stream := uuid_stream E;
     moviepy2 := b;
     probe_audio := probe_audio E;
     probe_image := probe_image E;
     encoder := encoder E;
     mux_buffer := mux_buffer E;
     fault := fault E;
     partial_output := partial_output E |}.

(** A session with both uploads and a click, in which nothing fails. *)
Definition sample_session : Session :=
  {| uploaded_audio := Some {| upload_name := "recital.wav"; upload_bytes := wav_bytes |};
     uploaded_image := Some {| upload_name := "cover.png"; upload_bytes := png_bytes |};
     clicked := true;
     now := 1762214400;
     os_fault := fun _ => None |}.

Definition empty_page : Page :=
  {| core := {| fs := ∅; open_handles := ∅; next_handle := 0;
                uuid_drawn := 0; ui := [] |};
     widgets := [] |}.

(** ** The function, one external call at a time *)

(** The generated names, by the position of the identifier in the stream
    of [uuid4]. *)
Definition out_name (E : Env) (k : nat) : string :=
  os_path_join (tempdir E) ("video_" ++ uuid_stream E k ++ ".mp4").

Definition temp_name (E : Env) (k : nat) : string :=
  "temp-audio-" ++ uuid_stream E k ++ ".m4a".

(** Where a call stands, with the local variables that are bound there.
    [ResizeFellBack] and [AudioFellBack] are the two [except AttributeError]
    branches, [Failed] is the entry of [except Exception as e], [Finished]
    is the call over, with the value it returned or the exception it
    raised.  [NamedBuffer], [Buffered] and [Encoded] are inside
    [write_videofile]. *)
Inductive stage :=
  | Start
  | Spinning
  | HaveAudio (audio_clip : AudioClip)
  | HaveImage (audio_clip : AudioClip) (image_clip : VideoClip)
  | ResizeFellBack (audio_clip : AudioClip) (image_clip : VideoClip)
  | Resized (audio_clip : AudioClip) (image_clip : VideoClip)
  | AudioFellBack (audio_clip : AudioClip) (image_clip : VideoClip)
  | Composed (audio_clip : AudioClip) (image_clip final_video : VideoClip)
  | NamedOutput (audio_clip : AudioClip) (image_clip final_video : VideoClip)
      (output_path : string)
  | NamedBuffer (audio_clip : AudioClip) (image_clip final_video : VideoClip)
      (output_path temp_audiofile : string)
  | Buffered (audio_clip : AudioClip) (image_clip final_video : VideoClip)
      (output_path temp_audiofile : string)
  | Encoded (audio_clip : AudioClip) (image_clip final_video : VideoClip)
      (output_path temp_audiofile : string) (r : res unit)
  | Written (audio_clip : AudioClip) (image_clip final_video : VideoClip)
      (output_path : string)
  | ClosedAudio (image_clip final_video : VideoClip) (output_path : string)
  | ClosedImage (final_video : VideoClip) (output_path : string)
  | Failed (e : exn)
  | Finished (r : res (option string)).

(** The request [write_videofile] is called with (source lines 53 to 61). *)
Definition request_at (final_video : VideoClip) (output_path temp_audiofile : string)
    : encode_request :=
  {| enc_clip := final_video;
     enc_filename := output_path;
     enc_fps := 24;
     enc_codec := "libx264";
     enc_audio_codec := "aac";
     enc_temp_audiofile := temp_audiofile;
     enc_remove_temp := true |}.

Section Steps.

Variable E : Env.

(** Modelled from the spec: the three parts of [write_videofile], in the
    order the spec gives them: the audio goes to the buffer file, the
    encoder writes the output, the buffer file is removed "regardless of
    outcome".  Run one after the other they are [write_videofile]
    ([write_videofile_in_steps]). *)
Definition write_audio_buffer (c : VideoClip) (temp_audiofile : string) : M unit :=
  fun s =>
    (Ret tt,
     set_fs (fun m => match clip_audio c with
                      | Some a => <[temp_audiofile := mux_buffer E a]> m
                      | None => m
                      end) s).

Definition encode_frames (r : encode_request) : M unit :=
  fun s =>
    if Qle_bool (clip_duration (enc_clip r)) 0 then
      (Raise (nothing_to_encode (enc_filename r)), s)
    else
      match fault E AtWrite with
      | None => (Ret tt, set_fs (fun m => <[enc_filename r := encoder E r]> m) s)
      | Some e =>
          (Raise e,
           set_fs (fun m => match partial_output E with
                            | Some part => <[enc_filename r := part]> m
                            | None => m
                            end) s)
      end.

Definition remove_buffer (temp_audiofile : string) (remove_temp : bool) : M unit :=
  fun s =>
    (Ret tt, set_fs (fun m => if remove_temp then delete temp_audiofile m else m) s).

(** One external call: run [m], go on with its value or with its
    exception. *)
Definition next {A} (m : M A) (ok : A -> stage) (ex : exn -> stage)
    : State -> stage * State :=
  fun s =>
    match m s with
    | (Ret a, s') => (ok a, s')
    | (Raise e, s') => (ex e, s')
    end.

Variables audio_path image_path : string.

(** The next external call of [create_video_from_audio_and_image] at a
    stage, and the stage it leads to. *)
Definition step (st : stage) : State -> stage * State :=
  match st with
  | Start =>
      next (st_spinner E "🎬 Creating your video... This may take a few minutes.")
        (fun _ => Spinning) Failed
  | Spinning =>
      next (AudioFileClip E audio_path) HaveAudio Failed
  | HaveAudio audio_clip =>
      next (ImageClip E image_path (audio_duration audio_clip))
        (HaveImage audio_clip) Failed
  | HaveImage audio_clip image_clip =>
      next (resized E image_clip 1080) (Resized audio_clip)
        (fun e => if is_AttributeError e then ResizeFellBack audio_clip image_clip
                  else Failed e)
  | ResizeFellBack audio_clip image_clip =>
      next (resize E image_clip 1080) (Resized audio_clip) Failed
  | Resized audio_clip image_clip =>
      next (with_audio E image_clip audio_clip) (Composed audio_clip image_clip)
        (fun e => if is_AttributeError e then AudioFellBack audio_clip image_clip
                  else Failed e)
  | AudioFellBack audio_clip image_clip =>
      next (set_audio E image_clip audio_clip) (Composed audio_clip image_clip) Failed
  | Composed audio_clip image_clip final_video =>
      next (tmp <- gettempdir E ;;
            u <- uuid4 E ;;
            ret (os_path_join tmp ("video_" ++ u ++ ".mp4")))
        (NamedOutput audio_clip image_clip final_video) Failed
  | NamedOutput audio_clip image_clip final_video output_path =>
      next (uuid4 E)
        (fun u => NamedBuffer audio_clip image_clip final_video output_path
                    ("temp-audio-" ++ u ++ ".m4a"))
        Failed
  | NamedBuffer audio_clip image_clip final_video output_path temp_audiofile =>
      next (write_audio_buffer final_video temp_audiofile)
        (fun _ => Buffered audio_clip image_clip final_video output_path temp_audiofile)
        Failed
  | Buffered audio_clip image_clip final_video output_path temp_audiofile =>
      fun s =>
        match encode_frames (request_at final_video output_path temp_audiofile) s with
        | (r, s') =>
            (Encoded audio_clip image_clip final_video output_path temp_audiofile r, s')
        end
  | Encoded audio_clip image_clip final_video output_path temp_audiofile r =>
      next (remove_buffer temp_audiofile true)
        (fun _ => match r with
                  | Ret _ => Written audio_clip image_clip final_video output_path
                  | Raise e => Failed e
                  end)
        Failed
  | Written audio_clip image_clip final_video output_path =>
      next (close E AtCloseAudio (audio_handle audio_clip))
        (fun _ => ClosedAudio image_clip final_video output_path) Failed
  | ClosedAudio image_clip final_video output_path =>
      next (close E AtCloseImage (clip_handle image_clip))
        (fun _ => ClosedImage final_video output_path) Failed
  | ClosedImage final_video output_path =>
      next (close E AtCloseFinal (clip_handle final_video))
        (fun _ => Finished (Ret (Some output_path))) Failed
  | Failed e =>
      if is_Exception e then
        next (st_error E ("Video creation failed: " ++ str e))
          (fun _ => Finished (Ret None)) (fun e' => Finished (Raise e'))
      else fun s => (Finished (Raise e), s)
  | Finished r => fun s => (Finished r, s)
  end.

(** The block [m] under the handler of the function (source lines 69 to
    71), and the stage of a call that is over after it. *)
Definition handled (m : M (option string)) : M (option string) :=
  try_except m is_Exception
    (fun e => st_error E ("Video creation failed: " ++ str e) ;;; ret None).

Definition finished (m : M (option string)) (s : State) : stage * State :=
  (Finished (fst (handled m s)), snd (handled m s)).

(** [n] steps of one call on its own. *)
Fixpoint run (n : nat) (st : stage) (s : State) : stage * State :=
  match n with
  | O => (st, s)
  | S n => let '(st', s') := step st s in run n st' s'
  end.

End Steps.

(** Two calls that run at the same time, on the same files, handles, page
    and identifier stream; each external call is one step, and a schedule
    says which of the two calls makes the next step. *)
Section Concurrent.

Variable E : Env.
Variables audio_path image_path audio_path' image_path' : string.

Definition step_of (first : bool) (c : stage * stage * State)
    : stage * stage * State :=
  let '(st, st', s) := c in
  if first then
    let '(st1, s1) := step E audio_path image_path st s in (st1, st', s1)
  else
    let '(st1, s1) := step E audio_path' image_path' st' s in (st, st1, s1).

Definition interleave (schedule : list bool) (c : stage * stage * State)
    : stage * stage * State :=
  fold_left (fun c first => step_of first c) schedule c.

End Concurrent.

(** What a call at a stage has generated: [ks] are the positions of the
    identifiers it has drawn, the generated names are those of [ks], the
    buffer file holds the call's own audio while the encoder is to read
    it, and once the encoder has returned the output file holds the
    encoding of the call's own request. *)
Definition holds (E : Env) (s : State) (st : stage) (ks : list nat) : Prop :=
  match st with
  | NamedOutput _ _ _ out => exists k, ks = [k] /\ out = out_name E k
  | NamedBuffer _ _ _ out temp =>
      exists k k', ks = [k; k'] /\ out = out_name E k /\ temp = temp_name E k'
  | Buffered _ _ f out temp =>
      exists k k', ks = [k; k'] /\ out = out_name E k /\ temp = temp_name E k' /\
        (forall a, clip_audio f = Some a -> fs s !! temp = Some (mux_buffer E a))
  | Encoded _ _ f out temp r =>
      exists k k', ks = [k; k'] /\ out = out_name E k /\ temp = temp_name E k' /\
        (r = Ret tt -> fs s !! out = Some (encoder E (request_at f out temp)))
  | Written _ _ f out | ClosedAudio _ f out | ClosedImage f out =>
      exists k k', ks = [k; k'] /\ out = out_name E k /\
        fs s !! out = Some (encoder E (request_at f out (temp_name E k')))
  | Finished (Ret (Some out)) =>
      exists k k' f, ks = [k; k'] /\ out = out_name E k /\
        fs s !! out = Some (encoder E (request_at f out (temp_name E k')))
  | Failed _ | Finished _ => True
  | _ => ks = []
  end.

(** Two calls hold identifiers from different positions of the stream, all
    of them drawn already. *)
Definition apart (E : Env) (c : stage * stage * State) : Prop :=
  let '(st, st', s) := c in
  exists ks ks',
    holds E s st ks /\ holds E s st' ks' /\
    (forall k, k ∈ ks -> (k < uuid_drawn s)%nat) /\
    (forall k, k ∈ ks' -> (k < uuid_drawn s)%nat) /\
    (forall k, k ∈ ks -> k ∈ ks' -> False).

(** Identifiers that never repeat, and a world that draws them. *)
Definition serial_uuids (n : nat) : string :=
  "6fa1c2d0-5b7e-4c11-9a3e-" ++ pretty n.

Definition serial_env : Env :=
  {| tempdir := tempdir sample_env;
     uuid_stream := serial_uuids;
     moviepy2 := moviepy2 sample_env;
     probe_audio := probe_audio sample_env;
     probe_image := probe_image sample_env;
     encoder := encoder sample_env;
     mux_buffer := mux_buffer sample_env;
     fault := fault sample_env;
     partial_output := partial_output sample_env |}.

(** The two calls take turns. *)
Definition taking_turns : list bool :=
  concat (repeat [true; false] 16).

(** * Strings and paths *)

Section Strings.

Lemma append_cons (x : ascii) (a b : string) :
  String x a ++ b = String x (a ++ b).
Proof. reflexivity. Qed.

Lemma append_assoc (a b c : string) : (a ++ b) ++ c = a ++ (b ++ c).
Proof.
  induction a as [|x a IH]; [reflexivity|].
  now rewrite !append_cons, IH.
Qed.

Lemma append_length (a b : string) :
  String.length (a ++ b) = (String.length a + String.length b)%nat.
Proof.
  induction a as [|x a IH]; [reflexivity|].
  rewrite append_cons. cbn [String.length]. now rewrite IH.
Qed.

(** Two strings that end in different characters differ. *)
Lemma append_last_neq (a b : string) (x y : ascii) :
  x <> y -> a ++ String x "" <> b ++ String y "".
Proof.
  intros Hxy. revert b.
  induction a as [|c a IH]; intros [|c' b]; rewrite ?append_cons;
    change ("" ++ String x "") with (String x "");
    change ("" ++ String y "") with (String y ""); intros Heq.
  - injection Heq as Heq. contradiction.
  - injection Heq as _ Heq. destruct b; discriminate.
  - injection Heq as _ Heq. destruct a; discriminate.
  - injection Heq as _ Heq. exact (IH b Heq).
Qed.

(** A common suffix can be cancelled. *)
Lemma append_inv_tail (a b c : string) : a ++ c = b ++ c -> a = b.
Proof.
  revert b. induction a as [|x a IH]; intros [|y b]; rewrite ?append_cons;
    intros Heq.
  - reflexivity.
  - exfalso. apply (f_equal String.length) in Heq.
    change ("" ++ c) with c in Heq. cbn [String.length] in Heq.
    rewrite append_length in Heq. lia.
  - exfalso. apply (f_equal String.length) in Heq.
    change ("" ++ c) with c in Heq. cbn [String.length] in Heq.
    rewrite append_length in Heq. lia.
  - injection Heq as -> Heq. f_equal. exact (IH b Heq).
Qed.

Lemma append_inv_head (a b c : string) : a ++ b = a ++ c -> b = c.
Proof.
  induction a as [|x a IH]; intros Heq; [exact Heq|].
  rewrite !append_cons in Heq. injection Heq as Heq. exact (IH Heq).
Qed.

Lemma os_path_join_relative (a b : string) :
  startswith_sep b = false -> os_path_join a b = dir_prefix a ++ b.
Proof.
  intros Hb. unfold os_path_join, dir_prefix. rewrite Hb.
  destruct (String.eqb a "" || endswith_sep a); [reflexivity|].
  now rewrite append_assoc.
Qed.

Lemma output_path_shape (E : Env) (s : State) :
  output_path_of E s
  = (dir_prefix (tempdir E) ++ "video_" ++ uuid_stream E (uuid_drawn s)) ++ ".mp4".
Proof.
  unfold output_path_of. rewrite os_path_join_relative by reflexivity.
  now rewrite !append_assoc.
Qed.

(** The output ends in [.mp4]; no name that ends in [.m4a] is the output
    path. *)
Lemma output_path_not_m4a (E : Env) (s : State) (stem : string) :
  output_path_of E s <> stem ++ ".m4a".
Proof.
  rewrite output_path_shape.
  change ".mp4" with (".mp" ++ String "4" "").
  change ".m4a" with (".m4" ++ String "a" "").
  rewrite <- !append_assoc.
  apply append_last_neq. discriminate.
Qed.

Lemma output_path_not_temp (E : Env) (s s' : State) :
  output_path_of E s <> temp_audiofile_of E s'.
Proof.
  unfold temp_audiofile_of. rewrite <- append_assoc. apply output_path_not_m4a.
Qed.

(** Different identifiers give different output paths and different
    buffer names. *)
Lemma output_path_inj (E : Env) (s s' : State) :
  output_path_of E s = output_path_of E s' ->
  uuid_stream E (uuid_drawn s) = uuid_stream E (uuid_drawn s').
Proof.
  rewrite !output_path_shape. intros Heq.
  apply append_inv_tail in Heq.
  apply append_inv_head in Heq. apply append_inv_head in Heq. exact Heq.
Qed.

Lemma temp_audiofile_inj (E : Env) (s s' : State) :
  temp_audiofile_of E s = temp_audiofile_of E s' ->
  uuid_stream E (S (uuid_drawn s)) = uuid_stream E (S (uuid_drawn s')).
Proof.
  unfold temp_audiofile_of. intros Heq.
  apply append_inv_head in Heq. apply append_inv_tail in Heq. exact Heq.
Qed.

End Strings.

(** * Runs of the function *)

(** The test [write_videofile] makes of the duration. *)
Lemma lasting_clip (d : Q) : Qle_bool d 0 = false <-> (0 < d)%Q.
Proof.
  split.
  - intros Hb. apply Qnot_le_lt. intros Hle. apply Qle_bool_iff in Hle. congruence.
  - intros Hlt. destruct (Qle_bool d 0) eqn:Hb; [|reflexivity].
    apply Qle_bool_iff in Hb. destruct (Qlt_not_le _ _ Hlt Hb).
Qed.

Section Runs.

Variable E : Env.
Variables audio_path image_path : string.
Variable s : State.

Lemma try_block_returns (r : option string) (s' : State) :
  try_block E audio_path image_path s = (Ret r, s') ->
  exists d w h,
    decodes E s audio_path image_path d w h /\
    uninterrupted E /\
    r = Some (output_path_of E s) /\
    s' = state_at_return E s audio_path image_path d w h.
Proof.
  unfold_calls. repeat case_step; try discriminate.
  all: intros [= <- <-].
  all: eexists _, _, _; split; [split; eauto|]; split; [|split; reflexivity].
  all: intros [] Hne; congruence.
Qed.

(** A run of the block to its last line has encoded a clip that lasts. *)
Lemma try_block_returns_lasting (r : option string) (s' : State) (d : Q) (w h : Z) :
  try_block E audio_path image_path s = (Ret r, s') ->
  decodes E s audio_path image_path d w h ->
  (0 < d)%Q.
Proof.
  intros Hrun [(ad & Had & Hd) _]. revert Hrun.
  unfold_calls. repeat case_step; try discriminate.
  all: intros _; cbn [fs set_ui open_handle] in *; simplify_eq.
  all: apply lasting_clip; exact Hlasts.
Qed.

Lemma try_block_succeeds (d : Q) (w h : Z) :
  decodes E s audio_path image_path d w h ->
  (0 < d)%Q ->
  uninterrupted E ->
  try_block E audio_path image_path s
  = (Ret (Some (output_path_of E s)),
     state_at_return E s audio_path image_path d w h).
Proof.
  intros [(ad & Had & Hd) (im & Him & Hwh)] Hpos Hun.
  apply lasting_clip in Hpos.
  pose proof (Hun AtSpinner ltac:(discriminate)).
  pose proof (Hun AtAudioFileClip ltac:(discriminate)).
  pose proof (Hun AtImageClip ltac:(discriminate)).
  pose proof (Hun AtResize ltac:(discriminate)).
  pose proof (Hun AtSetAudio ltac:(discriminate)).
  pose proof (Hun AtWrite ltac:(discriminate)).
  pose proof (Hun AtCloseAudio ltac:(discriminate)).
  pose proof (Hun AtCloseImage ltac:(discriminate)).
  pose proof (Hun AtCloseFinal ltac:(discriminate)).
  unfold_calls. repeat case_step; try congruence.
  all: cbn [fs set_ui open_handle] in *; simplify_eq; try reflexivity.
  all: cbn in Hlasts; congruence.
Qed.

(** The block writes to the output path and to the buffer file only. *)
Lemma try_block_frame (r : res (option string)) (s' : State) (path : string) :
  try_block E audio_path image_path s = (r, s') ->
  path <> output_path_of E s ->
  path <> temp_audiofile_of E s ->
  fs s' !! path = fs s !! path.
Proof.
  intros Hrun Hout Htmp. revert Hrun.
  fold (output_path_of E s) in *.
  unfold_calls. repeat case_step; intros [= <- <-]; try reflexivity.
  all: cbn [fs set_fs open_handle draw_uuid release_handle set_ui].
  all: fold (output_path_of E s); fold (temp_audiofile_of E s).
  all: rewrite ?lookup_delete_ne by congruence.
  all: repeat case_match.
  all: rewrite ?lookup_insert_ne by congruence; reflexivity.
Qed.

(** Before both inputs have decoded, the block writes nothing. *)
Lemma try_block_writes_nothing (r : res (option string)) (s' : State) :
  try_block E audio_path image_path s = (r, s') ->
  (forall d w h, ~ decodes E s audio_path image_path d w h) ->
  fs s' = fs s.
Proof.
  intros Hrun Hno. revert Hrun.
  unfold_calls. repeat case_step; intros [= <- <-]; try reflexivity.
  all: exfalso; eapply Hno; split; eauto.
Qed.

(** The handler adds an error box and touches nothing else. *)
Lemma create_video_unfold :
  create_video_from_audio_and_image E audio_path image_path s
  = match try_block E audio_path image_path s with
    | (Ret r, s1) => (Ret r, s1)
    | (Raise e, s1) =>
        if is_Exception e then
          match fault E AtStError with
          | Some e' => (Raise e', s1)
          | None =>
              (Ret None,
               set_ui (fun l => (l ++ [ErrorBox ("Video creation failed: " ++ str e)])%list) s1)
          end
        else (Raise e, s1)
    end.
Proof.
  unfold create_video_from_audio_and_image, try_except.
  destruct (try_block E audio_path image_path s) as [[r|e] s1]; [reflexivity|].
  destruct (is_Exception e); [|reflexivity].
  unfold st_error, interrupt, bind, ret.
  destruct (fault E AtStError); reflexivity.
Qed.

Lemma create_video_fs :
  exists r s1,
    try_block E audio_path image_path s = (r, s1) /\
    fs (snd (create_video_from_audio_and_image E audio_path image_path s)) = fs s1.
Proof.
  rewrite create_video_unfold.
  destruct (try_block E audio_path image_path s) as [[r|e] s1];
    eexists _, _; split; try reflexivity.
  destruct (is_Exception e); [|reflexivity].
  destruct (fault E AtStError); reflexivity.
Qed.

(** A returned path comes from a run of the block to its last line. *)
Lemma create_video_returns (p : string) :
  fst (create_video_from_audio_and_image E audio_path image_path s) = Ret (Some p) ->
  exists d w h,
    decodes E s audio_path image_path d w h /\
    uninterrupted E /\
    p = output_path_of E s /\
    snd (create_video_from_audio_and_image E audio_path image_path s)
    = state_at_return E s audio_path image_path d w h.
Proof.
  rewrite create_video_unfold.
  destruct (try_block E audio_path image_path s) as [[r|e] s1] eqn:Hrun.
  - cbn. intros [= ->].
    destruct (try_block_returns _ _ Hrun) as (d & w & h & Hdec & Hun & Hp & ->).
    injection Hp as ->. eauto 10.
  - destruct (is_Exception e); [|discriminate].
    destruct (fault E AtStError); discriminate.
Qed.

Lemma create_video_returns_lasting (p : string) (d : Q) (w h : Z) :
  fst (create_video_from_audio_and_image E audio_path image_path s) = Ret (Some p) ->
  decodes E s audio_path image_path d w h ->
  (0 < d)%Q.
Proof.
  rewrite create_video_unfold.
  destruct (try_block E audio_path image_path s) as [[r|e] s1] eqn:Hrun.
  - intros _. exact (try_block_returns_lasting _ _ _ _ _ Hrun).
  - destruct (is_Exception e); [|discriminate].
    destruct (fault E AtStError); discriminate.
Qed.

End Runs.

(** * Geometry and timing *)

Section Geometry.

Lemma round_even_even (n d : Z) : Z.even (round_even n d) = true.
Proof. unfold round_even. now rewrite Z.even_mul. Qed.

(** The rounded width is within one pixel of [n / d]. *)
Lemma round_even_near (n d : Z) :
  0 < d -> Z.abs (round_even n d * d - n) <= d.
Proof.
  intros Hd. unfold round_even.
  pose proof (Z.div_mod (n + d) (2 * d) ltac:(lia)) as Hdm.
  pose proof (Z.mod_pos_bound (n + d) (2 * d) ltac:(lia)) as Hb.
  set (q := (n + d) / (2 * d)) in *.
  set (m := (n + d) mod (2 * d)) in *.
  nia.
Qed.

(** No other even integer is nearer. *)
Lemma round_even_nearest (n d k : Z) :
  0 < d -> Z.abs (round_even n d * d - n) <= Z.abs (2 * k * d - n).
Proof.
  intros Hd. unfold round_even.
  pose proof (Z.div_mod (n + d) (2 * d) ltac:(lia)) as Hdm.
  pose proof (Z.mod_pos_bound (n + d) (2 * d) ltac:(lia)) as Hb.
  set (q := (n + d) / (2 * d)) in *.
  set (m := (n + d) mod (2 * d)) in *.
  destruct (Z.eq_dec k q) as [->|Hne]; [lia|].
  assert (k <= q - 1 \/ q + 1 <= k) as [Hk|Hk] by lia; nia.
Qed.

(** At a positive frame rate the frames written cover the duration of the
    clip and end less than one frame interval after it. *)
(** The frames written last as long as the clip, within one frame. *)
Lemma frames_written_bounds (v2 : bool) (r : encode_request) :
  0 < enc_fps r ->
  (0 <= clip_duration (enc_clip r))%Q ->
  (clip_duration (enc_clip r) - 1 / inject_Z (enc_fps r)
   < inject_Z (frames_written v2 r) / inject_Z (enc_fps r))%Q /\
  (inject_Z (frames_written v2 r) / inject_Z (enc_fps r)
   < clip_duration (enc_clip r) + 1 / inject_Z (enc_fps r))%Q.
Proof.
  intros Hfps Hpos. unfold frames_written.
  set (d := clip_duration (enc_clip r)) in *.
  set (f := inject_Z (enc_fps r)).
  assert (Hf : (0 < f)%Q) by (unfold f; change 0%Q with (inject_Z 0); rewrite <- Zlt_Qlt; exact Hfps).
  assert (Hnz : ~ (f == 0)%Q) by (intros H0; rewrite H0 in Hf; discriminate).
  assert (Hx : (0 <= d * f)%Q) by (apply Qmult_le_0_compat; [exact Hpos | apply Qlt_le_weak, Hf]).
  assert (Hlo : ((d - 1 / f) * f == d * f - 1)%Q) by (field; exact Hnz).
  assert (Hhi : ((d + 1 / f) * f == d * f + 1)%Q) by (field; exact Hnz).
  assert (Hn : exists n, Z.max 0 (if v2 then Qfloor (d * f) else Qceiling (d * f)) = n /\
                         (d * f - 1 < inject_Z n)%Q /\ (inject_Z n < d * f + 1)%Q).
  { destruct v2.
    - pose proof (Qfloor_le (d * f)) as Hle.
      pose proof (Qlt_floor (d * f)) as Hlt.
      set (c := Qfloor (d * f)) in *.
      rewrite inject_Z_plus in Hlt.
      assert (Hc : 0 <= c).
      { apply Z.lt_succ_r. rewrite Zlt_Qlt. unfold Z.succ. rewrite inject_Z_plus.
        change (inject_Z 0) with 0%Q. change (inject_Z 1) with 1%Q in *. lra. }
      exists c. rewrite Z.max_r by exact Hc.
      change (inject_Z 1) with 1%Q in *. repeat split; lra.
    - pose proof (Qle_ceiling (d * f)) as Hle.
      pose proof (Qceiling_lt (d * f)) as Hlt.
      set (c := Qceiling (d * f)) in *.
      assert (Hlt' : (inject_Z c - 1 < d * f)%Q).
      { unfold Z.sub in Hlt. rewrite inject_Z_plus in Hlt. exact Hlt. }
      assert (Hc : 0 <= c).
      { rewrite Zle_Qle. change (inject_Z 0) with 0%Q. lra. }
      exists c. rewrite Z.max_r by exact Hc.
      repeat split; lra. }
  destruct Hn as (n & -> & Hn1 & Hn2).
  split.
  - apply Qlt_shift_div_l; [assumption|]. rewrite Hlo. exact Hn1.
  - apply Qlt_shift_div_r; [assumption|]. rewrite Hhi. exact Hn2.
Qed.

End Geometry.

(** * The synthesized output *)

Section Output.

Variable E : Env.
Variables audio_path image_path : string.
Variable s : State.

Lemma decodes_inj (d d' : Q) (w w' h h' : Z) :
  decodes E s audio_path image_path d w h ->
  decodes E s audio_path image_path d' w' h' ->
  d = d' /\ w = w' /\ h = h'.
Proof.
  intros [(a & Ha & Hd) (i & Hi & Hwh)] [(a' & Ha' & Hd') (i' & Hi' & Hwh')].
  simplify_eq. auto.
Qed.

(** After a run to the last line the output file holds what the encoder
    made of the request. *)
Lemma output_at_return (d : Q) (w h : Z) :
  fs (state_at_return E s audio_path image_path d w h) !! output_path_of E s
  = Some (encoder E (request_of E s audio_path image_path d w h)).
Proof.
  cbn [fs state_at_return].
  rewrite lookup_delete_ne by (intros Heq; symmetry in Heq; revert Heq; apply output_path_not_temp).
  apply lookup_insert_eq.
Qed.

(** The request a returning run has encoded, for inputs that decode to
    [d], [w] and [h]. *)
Lemma returned_request (d : Q) (w h : Z) (p : string) :
  decodes E s audio_path image_path d w h ->
  fst (create_video_from_audio_and_image E audio_path image_path s) = Ret (Some p) ->
  p = output_path_of E s /\
  fs (snd (create_video_from_audio_and_image E audio_path image_path s)) !! p
  = Some (encoder E (request_of E s audio_path image_path d w h)).
Proof.
  intros Hdec Hret.
  destruct (create_video_returns _ _ _ _ _ Hret) as (d' & w' & h' & Hdec' & _ & -> & ->).
  destruct (decodes_inj _ _ _ _ _ _ Hdec Hdec') as (<- & <- & <-).
  split; [reflexivity | apply output_at_return].
Qed.

(** C1: for every input pair that decodes to an audio of duration [d] and
    an image, a call that returns a path has written there the encoding of
    a request whose video track is the still image, scaled, held for
    exactly [d] seconds next to the unmodified audio, at 24 frames per
    second; a reader of the encoder's files finds in the file at the
    returned path frames that last more than [d - 1/24] and less than
    [d + 1/24] seconds. *)
Theorem video_track_lasts_as_audio (frames_in : file -> option Z)
    (d : Q) (w h : Z) (p : string) :
  reads_back E frames_in ->
  decodes E s audio_path image_path d w h ->
  fst (create_video_from_audio_and_image E audio_path image_path s) = Ret (Some p) ->
  exists r W H n,
    fs (snd (create_video_from_audio_and_image E audio_path image_path s)) !! p
    = Some (encoder E r) /\
    clip_picture (enc_clip r) = Scaled (Still image_path w h) W H /\
    clip_duration (enc_clip r) = d /\
    clip_audio (enc_clip r) = Some (audio_clip_of s audio_path d) /\
    audio_duration (audio_clip_of s audio_path d) = d /\
    enc_fps r = 24 /\
    frames_in (encoder E r) = Some n /\
    (d - 1 / 24 < inject_Z n / 24)%Q /\
    (inject_Z n / 24 < d + 1 / 24)%Q.
Proof.
  intros Hread Hdec Hret.
  pose proof (create_video_returns_lasting _ _ _ _ _ _ _ _ Hret Hdec) as Hpos.
  destruct (returned_request _ _ _ _ Hdec Hret) as [-> Hfile].
  eexists _, _, _, _. split; [exact Hfile|].
  split; [reflexivity|]. split; [reflexivity|]. split; [reflexivity|].
  split; [reflexivity|]. split; [reflexivity|]. split; [apply Hread|].
  apply (frames_written_bounds (moviepy2 E) (request_of E s audio_path image_path d w h)).
  - reflexivity.
  - apply Qlt_le_weak. exact Hpos.
Qed.

(** C2: for every input image of width [w] and height [h > 0], a call that
    returns a path has encoded a frame that is the whole image scaled to
    height 1080 and to the even width nearest to [w * 1080 / h], which is
    within one pixel of it; nothing is cropped or padded. *)
Theorem scaled_frame_geometry (d : Q) (w h : Z) (p : string) :
  decodes E s audio_path image_path d w h ->
  0 < h ->
  fst (create_video_from_audio_and_image E audio_path image_path s) = Ret (Some p) ->
  exists r W,
    fs (snd (create_video_from_audio_and_image E audio_path image_path s)) !! p
    = Some (encoder E r) /\
    clip_picture (enc_clip r) = Scaled (Still image_path w h) W 1080 /\
    clip_size (enc_clip r) = (W, 1080) /\
    W = round_even (w * 1080) h /\
    Z.even W = true /\
    Z.abs (W * h - w * 1080) <= h /\
    (forall k, Z.abs (W * h - w * 1080) <= Z.abs (2 * k * h - w * 1080)).
Proof.
  intros Hdec Hh Hret.
  destruct (returned_request _ _ _ _ Hdec Hret) as [-> Hfile].
  eexists _, _. split; [exact Hfile|].
  split; [reflexivity|]. split; [reflexivity|]. split; [reflexivity|].
  split; [apply round_even_even|].
  split; [apply round_even_near; exact Hh|].
  intros k. apply round_even_nearest; exact Hh.
Qed.

(** C3: every call that returns a path has encoded with 24 frames per
    second, video codec libx264, audio codec aac, into the returned file,
    whose name ends in [.mp4]. *)
Theorem fixed_encoding_parameters (p : string) :
  fst (create_video_from_audio_and_image E audio_path image_path s) = Ret (Some p) ->
  exists r stem,
    fs (snd (create_video_from_audio_and_image E audio_path image_path s)) !! p
    = Some (encoder E r) /\
    enc_filename r = p /\
    p = stem ++ ".mp4" /\
    enc_fps r = 24 /\
    enc_codec r = "libx264" /\
    enc_audio_codec r = "aac".
Proof.
  intros Hret.
  destruct (create_video_returns _ _ _ _ _ Hret) as (d & w & h & Hdec & _ & _ & _).
  destruct (returned_request _ _ _ _ Hdec Hret) as [-> Hfile].
  eexists _, _. split; [exact Hfile|].
  split; [reflexivity|]. split; [apply output_path_shape|].
  repeat split.
Qed.

End Output.

(** * Files the function touches *)

Section Files.

Variable E : Env.
Variables audio_path image_path : string.
Variable s : State.

Lemma decodes_dec :
  (exists d w h, decodes E s audio_path image_path d w h) \/
  (forall d w h, ~ decodes E s audio_path image_path d w h).
Proof.
  unfold decodes.
  destruct (fs s !! audio_path) as [a|] eqn:Ha;
    [destruct (probe_audio E a) as [d|] eqn:Hd|].
  2,3: right; intros d' w' h' [(a' & Ha' & Hd') _]; congruence.
  destruct (fs s !! image_path) as [i|] eqn:Hi;
    [destruct (probe_image E i) as [[w h]|] eqn:Hwh|].
  2,3: right; intros d' w' h' [_ (i' & Hi' & Hwh')]; congruence.
  left. exists d, w, h. split; eauto.
Qed.

(** When the block ends, the buffer file is gone or no file has changed. *)
Lemma try_block_temp_gone (r : res (option string)) (s' : State) :
  try_block E audio_path image_path s = (r, s') ->
  fs s' = fs s \/ fs s' !! temp_audiofile_of E s = None.
Proof.
  unfold_calls. repeat case_step; intros [= <- <-]; auto.
  all: right; cbn [fs set_fs open_handle draw_uuid release_handle set_ui].
  all: fold (temp_audiofile_of E s); apply lookup_delete_eq.
Qed.

Lemma create_video_frame (path : string) :
  path <> output_path_of E s ->
  path <> temp_audiofile_of E s ->
  fs (snd (create_video_from_audio_and_image E audio_path image_path s)) !! path
  = fs s !! path.
Proof.
  intros Hout Htmp.
  destruct (create_video_fs E audio_path image_path s) as (r & s1 & Hrun & ->).
  exact (try_block_frame _ _ _ _ _ _ _ Hrun Hout Htmp).
Qed.

Lemma create_video_writes_nothing :
  (forall d w h, ~ decodes E s audio_path image_path d w h) ->
  fs (snd (create_video_from_audio_and_image E audio_path image_path s)) = fs s.
Proof.
  intros Hno.
  destruct (create_video_fs E audio_path image_path s) as (r & s1 & Hrun & ->).
  exact (try_block_writes_nothing _ _ _ _ _ _ Hrun Hno).
Qed.

Lemma create_video_temp_gone :
  fs (snd (create_video_from_audio_and_image E audio_path image_path s)) = fs s \/
  fs (snd (create_video_from_audio_and_image E audio_path image_path s))
    !! temp_audiofile_of E s = None.
Proof.
  destruct (create_video_fs E audio_path image_path s) as (r & s1 & Hrun & ->).
  exact (try_block_temp_gone _ _ Hrun).
Qed.

(** A run to the last line closes the three handles it opened. *)
Lemma handles_released_at_return (d : Q) (w h : Z) :
  (forall k, k ∈ open_handles s -> (k < next_handle s)%nat) ->
  open_handles (state_at_return E s audio_path image_path d w h) = open_handles s.
Proof.
  intros Hwf. cbn [open_handles state_at_return].
  apply set_eq. intros k. specialize (Hwf k).
  rewrite !elem_of_difference, !elem_of_union, !elem_of_singleton.
  split; [tauto|]. intros Hk. specialize (Hwf Hk). repeat split; auto; lia.
Qed.

End Files.

(** * Failures *)

Section Failures.

Variable E : Env.
Variables audio_path image_path : string.
Variable s : State.

(** C4, as the code has it: when the [try] block fails with an exception
    that derives from [Exception] and [st.error] completes, the function
    shows "Video creation failed: " and the message of the cause in an
    error box and returns [None]; it raises nothing. *)
Theorem failure_reported_and_None (e : exn) :
  fst (try_block E audio_path image_path s) = Raise e ->
  is_Exception e = true ->
  fault E AtStError = None ->
  fst (create_video_from_audio_and_image E audio_path image_path s) = Ret None /\
  ui (snd (create_video_from_audio_and_image E audio_path image_path s))
  = (ui (snd (try_block E audio_path image_path s))
       ++ [ErrorBox ("Video creation failed: " ++ str e)])%list.
Proof.
  intros Hraise Hexn Herr. rewrite create_video_unfold.
  destruct (try_block E audio_path image_path s) as [[r|e'] s1];
    cbn in Hraise; [discriminate|].
  injection Hraise as ->. rewrite Hexn, Herr. split; reflexivity.
Qed.


(** C10, as the code has it: for every input the call gives exactly one of
    three results.  It returns the path it generated; or it returns [None],
    after the [try] block raised an exception that derives from
    [Exception]; or it raises, and then the exception either does not
    derive from [Exception] and comes from the [try] block, or comes from
    [st.error] in the handler. *)
Theorem create_video_outcomes :
  match fst (create_video_from_audio_and_image E audio_path image_path s) with
  | Ret (Some p) => p = output_path_of E s
  | Ret None =>
      exists e, fst (try_block E audio_path image_path s) = Raise e /\
                is_Exception e = true
  | Raise e =>
      (fst (try_block E audio_path image_path s) = Raise e /\
       is_Exception e = false) \/
      fault E AtStError = Some e
  end.
Proof.
  rewrite create_video_unfold.
  destruct (try_block E audio_path image_path s) as [[r|e] s1] eqn:Hrun.
  - destruct (try_block_returns _ _ _ _ _ _ Hrun) as (d & w & h & _ & _ & -> & _).
    reflexivity.
  - destruct (is_Exception e) eqn:Hexn.
    + destruct (fault E AtStError) eqn:Herr; cbn; eauto.
    + cbn. auto.
Qed.

End Failures.

(** * The function as a machine *)

Section Machine.

Variable E : Env.
Variables audio_path image_path : string.

Lemma run_Finished (n : nat) (r : res (option string)) (s : State) :
  run E audio_path image_path n (Finished r) s = (Finished r, s).
Proof. induction n as [|n IH]; [reflexivity | exact IH]. Qed.

Lemma finished_bind_Ret {A} (m : M A) (k : A -> M (option string))
    (s s' : State) (a : A) :
  m s = (Ret a, s') -> finished E (bind m k) s = finished E (k a) s'.
Proof.
  intros Hm. unfold finished, handled, try_except, bind. rewrite Hm. reflexivity.
Qed.

Lemma finished_bind_Raise {A} (m : M A) (k : A -> M (option string))
    (s s' : State) (e : exn) :
  m s = (Raise e, s') -> finished E (bind m k) s = finished E (raise e) s'.
Proof.
  intros Hm. unfold finished, handled, try_except, bind, raise. rewrite Hm. reflexivity.
Qed.

Lemma run_Failed (n : nat) (e : exn) (s : State) :
  (1 <= n)%nat ->
  run E audio_path image_path n (Failed e) s = finished E (raise e) s.
Proof.
  intros Hn. destruct n as [|n]; [lia|]. cbn [run step].
  unfold finished, handled, try_except, raise, next, bind, ret.
  destruct (is_Exception e).
  - destruct (st_error E ("Video creation failed: " ++ str e) s) as [[[]|e'] s'];
      apply run_Finished.
  - apply run_Finished.
Qed.

(** A stage whose step is one call [m] is the block that starts with [m]. *)
Lemma run_next {A} (m : M A) (k : A -> M (option string)) (ok : A -> stage)
    (st : stage) (N : nat) :
  step E audio_path image_path st = next m ok Failed ->
  (forall a s n, (N <= n)%nat ->
     run E audio_path image_path n (ok a) s = finished E (k a) s) ->
  forall s n, (S (N `max` 1) <= n)%nat ->
    run E audio_path image_path n st s = finished E (bind m k) s.
Proof.
  intros Hst Hk s n Hn. destruct n as [|n]; [lia|]. cbn [run]. rewrite Hst.
  unfold next. destruct (m s) as [[a|e] s'] eqn:Hm.
  - rewrite (finished_bind_Ret _ _ _ _ _ Hm). apply Hk. lia.
  - rewrite (finished_bind_Raise _ _ _ _ _ Hm). apply run_Failed. lia.
Qed.

(** A stage that tries a method of MoviePy 2 and falls back to the one of
    MoviePy 1 is the block that starts with that [try]. *)
Lemma run_fallback {A} (m m' : M A) (k : A -> M (option string)) (ok : A -> stage)
    (st st' : stage) (N : nat) :
  step E audio_path image_path st
  = next m ok (fun e => if is_AttributeError e then st' else Failed e) ->
  step E audio_path image_path st' = next m' ok Failed ->
  (forall a s n, (N <= n)%nat ->
     run E audio_path image_path n (ok a) s = finished E (k a) s) ->
  forall s n, (S (S (N `max` 1)) <= n)%nat ->
    run E audio_path image_path n st s
    = finished E (bind (try_except m is_AttributeError (fun _ => m')) k) s.
Proof.
  intros Hst Hst' Hk s n Hn. destruct n as [|n]; [lia|]. cbn [run]. rewrite Hst.
  unfold next. destruct (m s) as [[a|e] s'] eqn:Hm.
  - rewrite (finished_bind_Ret _ _ s s' a) by (unfold try_except; now rewrite Hm).
    apply Hk. lia.
  - destruct (is_AttributeError e) eqn:Hattr.
    + destruct n as [|n]; [lia|]. cbn [run]. rewrite Hst'. unfold next.
      destruct (m' s') as [[a|e'] s''] eqn:Hm'.
      * rewrite (finished_bind_Ret _ _ s s'' a)
          by (unfold try_except; now rewrite Hm, Hattr, Hm').
        apply Hk. lia.
      * rewrite (finished_bind_Raise _ _ s s'' e')
          by (unfold try_except; now rewrite Hm, Hattr, Hm').
        apply run_Failed. lia.
    + rewrite (finished_bind_Raise _ _ s s' e)
        by (unfold try_except; now rewrite Hm, Hattr).
      apply run_Failed. lia.
Qed.

(** The three steps inside [write_videofile] are [write_videofile]. *)
Lemma run_write_videofile (a : AudioClip) (i f : VideoClip) (out temp : string)
    (k : M (option string)) (N : nat) :
  (forall s n, (N <= n)%nat ->
     run E audio_path image_path n (Written a i f out) s = finished E k s) ->
  forall s n, (3 + (N `max` 1) <= n)%nat ->
    run E audio_path image_path n (NamedBuffer a i f out temp) s
    = finished E (write_videofile E f out 24 "libx264" "aac" temp true ;;; k)%py s.
Proof.
  intros Hk s n Hn.
  destruct n as [|[|[|n]]]; try lia.
  cbn [run step next write_audio_buffer]. unfold encode_frames.
  cbn [request_at enc_clip enc_filename].
  destruct (Qle_bool (clip_duration f) 0) eqn:Hlasts;
    [|destruct (fault E AtWrite) as [e|] eqn:Hwrite];
    cbn [run step next remove_buffer].
  - rewrite (finished_bind_Raise _ _ s
               (set_fs (fun m => delete temp
                                   (match clip_audio f with
                                    | Some a0 => <[temp := mux_buffer E a0]> m
                                    | None => m
                                    end)) s)
               (nothing_to_encode out))
      by (unfold write_videofile; now rewrite Hlasts).
    apply run_Failed. lia.
  - match goal with
    | |- run _ _ _ _ _ ?s' = _ =>
        rewrite (finished_bind_Raise _ _ s s' e)
          by (unfold write_videofile; rewrite Hlasts, Hwrite;
              destruct (partial_output E); reflexivity)
    end.
    apply run_Failed. lia.
  - rewrite (finished_bind_Ret _ _ s
               (set_fs (fun m => delete temp
                                   (<[out := encoder E (request_at f out temp)]>
                                      (match clip_audio f with
                                       | Some a0 => <[temp := mux_buffer E a0]> m
                                       | None => m
                                       end))) s) tt)
      by (unfold write_videofile; now rewrite Hlasts, Hwrite).
    apply Hk. lia.
Qed.

Lemma run_is_call (s : State) :
  run E audio_path image_path 16 Start s
  = (Finished (fst (create_video_from_audio_and_image E audio_path image_path s)),
     snd (create_video_from_audio_and_image E audio_path image_path s)).
Proof.
  change (run E audio_path image_path 16 Start s
          = finished E (try_block E audio_path image_path) s).
  unfold try_block.
  apply (run_next _ _ (fun _ => Spinning) Start 15); [reflexivity | | lia].
  intros _ s1 n1 Hn1.
  apply (run_next _ _ HaveAudio Spinning 14); [reflexivity | | lia].
  intros a s2 n2 Hn2.
  apply (run_next _ _ (HaveImage a) (HaveAudio a) 13); [reflexivity | | lia].
  intros i s3 n3 Hn3.
  apply (run_fallback _ _ _ (Resized a) (HaveImage a i) (ResizeFellBack a i) 11);
    [reflexivity | reflexivity | | lia].
  intros i' s4 n4 Hn4.
  apply (run_fallback _ _ _ (Composed a i') (Resized a i') (AudioFellBack a i') 9);
    [reflexivity | reflexivity | | lia].
  intros f s5 n5 Hn5.
  destruct n5 as [|n5]; [lia|]. cbn [run step]. unfold next, gettempdir, uuid4, bind, ret.
  change (run E audio_path image_path n5
            (NamedOutput a i' f (os_path_join (tempdir E) ("video_" ++ uuid_stream E (uuid_drawn s5) ++ ".mp4")))
            (draw_uuid s5)
          = finished E
              (u' <- uuid4 E ;;
               write_videofile E f
                 (os_path_join (tempdir E) ("video_" ++ uuid_stream E (uuid_drawn s5) ++ ".mp4"))
                 24 "libx264" "aac" ("temp-audio-" ++ u' ++ ".m4a") true ;;;
               close E AtCloseAudio (audio_handle a) ;;;
               close E AtCloseImage (clip_handle i') ;;;
               close E AtCloseFinal (clip_handle f) ;;;
               ret (Some (os_path_join (tempdir E) ("video_" ++ uuid_stream E (uuid_drawn s5) ++ ".mp4"))))%py
              (draw_uuid s5)).
  set (out := os_path_join (tempdir E) ("video_" ++ uuid_stream E (uuid_drawn s5) ++ ".mp4")).
  apply (run_next _ _ (fun u => NamedBuffer a i' f out ("temp-audio-" ++ u ++ ".m4a"))
           (NamedOutput a i' f out) 7); [reflexivity | | lia].
  intros u s6 n6 Hn6.
  apply (run_write_videofile a i' f out _ _ 4); [|lia].
  intros s7 n7 Hn7.
  apply (run_next _ _ (fun _ => ClosedAudio i' f out) (Written a i' f out) 3);
    [reflexivity | | lia].
  intros _ s8 n8 Hn8.
  apply (run_next _ _ (fun _ => ClosedImage f out) (ClosedAudio i' f out) 2);
    [reflexivity | | lia].
  intros _ s9 n9 Hn9.
  apply (run_next _ _ (fun _ => Finished (Ret (Some out))) (ClosedImage f out) 0);
    [reflexivity | | lia].
  intros _ s10 n10 _. rewrite run_Finished. reflexivity.
Qed.

End Machine.

(** A schedule that lets the first call alone make [n] steps. *)
Lemma interleave_first_alone (E : Env) (a i a' i' : string) (n : nat) (st st' : stage) (s : State) :
  interleave E a i a' i' (repeat true n) (st, st', s)
  = (fst (run E a i n st s), st', snd (run E a i n st s)).
Proof.
  revert st s. induction n as [|n IH]; intros st s; [reflexivity|].
  cbn [repeat interleave fold_left step_of run].
  destruct (step E a i st s) as [st1 s1]. apply IH.
Qed.


(** * Two calls at the same time *)

Section GeneratedNames.

Variable E : Env.

Lemma out_name_shape (k : nat) :
  out_name E k = (dir_prefix (tempdir E) ++ "video_" ++ uuid_stream E k) ++ ".mp4".
Proof.
  unfold out_name. rewrite os_path_join_relative by reflexivity.
  now rewrite !append_assoc.
Qed.

Lemma out_name_not_temp (k j : nat) : out_name E k <> temp_name E j.
Proof.
  rewrite out_name_shape. unfold temp_name.
  change ".mp4" with (".mp" ++ String "4" "").
  change ".m4a" with (".m4" ++ String "a" "").
  rewrite <- !append_assoc.
  apply append_last_neq. discriminate.
Qed.

Lemma out_name_inj (k j : nat) :
  out_name E k = out_name E j -> uuid_stream E k = uuid_stream E j.
Proof.
  rewrite !out_name_shape. intros Heq.
  apply append_inv_tail in Heq.
  apply append_inv_head in Heq. apply append_inv_head in Heq. exact Heq.
Qed.

Lemma temp_name_inj (k j : nat) :
  temp_name E k = temp_name E j -> uuid_stream E k = uuid_stream E j.
Proof.
  unfold temp_name. intros Heq.
  apply append_inv_head in Heq. apply append_inv_tail in Heq. exact Heq.
Qed.

End GeneratedNames.

Section OneStep.

Variable E : Env.
Variables audio_path image_path : string.

(** What one step of a call does to the identifiers it holds and to the
    files: it draws at most one identifier, the next of the stream, and it
    writes to the names of identifiers it held before the step only. *)
Lemma step_effect (st : stage) (s : State) (ks : list nat) :
  holds E s st ks ->
  exists ks',
    holds E (snd (step E audio_path image_path st s))
      (fst (step E audio_path image_path st s)) ks' /\
    ((ks' = ks /\
      uuid_drawn (snd (step E audio_path image_path st s)) = uuid_drawn s) \/
     (ks' = (ks ++ [uuid_drawn s])%list /\
      uuid_drawn (snd (step E audio_path image_path st s)) = S (uuid_drawn s))) /\
    (forall path,
       (forall k, k ∈ ks -> path <> out_name E k /\ path <> temp_name E k) ->
       fs (snd (step E audio_path image_path st s)) !! path = fs s !! path).
Proof.
  destruct st as [ | |a|a i|a i|a i|a i|a i f|a i f out|a i f out temp
                 |a i f out temp|a i f out temp r|a i f out|i f out|f out|e|r];
    cbn [holds].
  1-7: intros ->; cbv [step next]; unfold_calls; repeat case_step;
       exists []; cbn [fst snd holds]; (split; [exact I || reflexivity|]);
       (split; [left; split; reflexivity|]); intros; reflexivity.
  - (* Composed *)
    intros ->. cbv [step next]. unfold_calls.
    exists [uuid_drawn s]. cbn [fst snd holds]. split; [eexists; split; reflexivity|].
    split; [right; split; reflexivity|]. intros; reflexivity.
  - (* NamedOutput *)
    intros (k & -> & ->). cbv [step next]. unfold_calls.
    exists [k; uuid_drawn s]. cbn [fst snd holds].
    split; [eexists _, _; repeat split; reflexivity|].
    split; [right; split; reflexivity|]. intros; reflexivity.
  - (* NamedBuffer *)
    intros (k & k' & -> & -> & ->). cbv [step next write_audio_buffer].
    exists [k; k']. cbn [fst snd holds fs set_fs uuid_drawn].
    split; [|split; [left; split; reflexivity|]].
    + eexists _, _. repeat split; try reflexivity.
      intros aud ->. apply lookup_insert_eq.
    + intros path Hpath.
      destruct (Hpath k' ltac:(clear; set_solver)) as [_ Hne].
      destruct (clip_audio f); [|reflexivity].
      apply lookup_insert_ne. congruence.
  - (* Buffered *)
    intros (k & k' & -> & -> & -> & Hbuf). cbv [step encode_frames].
    cbn [request_at enc_clip enc_filename].
    exists [k; k'].
    destruct (Qle_bool (clip_duration f) 0);
      [|destruct (fault E AtWrite); [destruct (partial_output E)|]];
      cbn [fst snd holds fs set_fs uuid_drawn].
    all: split; [eexists _, _; repeat split; try reflexivity; try discriminate|].
    all: try (intros _; apply lookup_insert_eq).
    all: split; [left; split; reflexivity|].
    all: intros path Hpath; destruct (Hpath k ltac:(clear; set_solver)) as [Hne _].
    all: try reflexivity.
    all: apply lookup_insert_ne; congruence.
  - (* Encoded *)
    intros (k & k' & -> & -> & -> & Hout). cbv [step next remove_buffer].
    exists [k; k'].
    destruct r as [[]|e]; cbn [fst snd holds fs set_fs uuid_drawn].
    all: split; [|split; [left; split; reflexivity|]].
    all: try exact I.
    + eexists _, _. repeat split; try reflexivity.
      rewrite lookup_delete_ne by (apply not_eq_sym, out_name_not_temp).
      apply Hout. reflexivity.
    + intros path Hpath. destruct (Hpath k' ltac:(clear; set_solver)) as [_ Hne].
      apply lookup_delete_ne. congruence.
    + intros path Hpath. destruct (Hpath k' ltac:(clear; set_solver)) as [_ Hne].
      apply lookup_delete_ne. congruence.
  - (* Written *)
    intros (k & k' & -> & -> & Hout). cbv [step next]. unfold_calls.
    repeat case_step; exists [k; k']; cbn [fst snd holds fs release_handle uuid_drawn].
    all: split; [exact I || (eexists _, _; repeat split; try reflexivity; exact Hout)|].
    all: split; [left; split; reflexivity|]; intros; reflexivity.
  - (* ClosedAudio *)
    intros (k & k' & -> & -> & Hout). cbv [step next]. unfold_calls.
    repeat case_step; exists [k; k']; cbn [fst snd holds fs release_handle uuid_drawn].
    all: split; [exact I || (eexists _, _; repeat split; try reflexivity; exact Hout)|].
    all: split; [left; split; reflexivity|]; intros; reflexivity.
  - (* ClosedImage *)
    intros (k & k' & -> & -> & Hout). cbv [step next]. unfold_calls.
    repeat case_step; exists [k; k']; cbn [fst snd holds fs release_handle uuid_drawn].
    all: split; [exact I || (eexists _, _, _; repeat split; try reflexivity; exact Hout)|].
    all: split; [left; split; reflexivity|]; intros; reflexivity.
  - (* Failed *)
    intros _. cbv [step next]. unfold_calls.
    repeat case_step; exists ks; cbn [fst snd holds fs set_ui uuid_drawn].
    all: split; [exact I|]; split; [left; split; reflexivity|]; intros; reflexivity.
  - (* Finished *)
    intros Hh. exists ks. cbn [step fst snd].
    split; [exact Hh|]. split; [left; split; reflexivity|]. intros; reflexivity.
Qed.

(** What a call holds stays true while the files of its names stay as
    they are. *)
Lemma holds_stable (st : stage) (s s' : State) (ks : list nat) :
  holds E s st ks ->
  (forall k, k ∈ ks ->
     fs s' !! out_name E k = fs s !! out_name E k /\
     fs s' !! temp_name E k = fs s !! temp_name E k) ->
  holds E s' st ks.
Proof.
  intros Hh Hfs.
  destruct st as [ | |a|a i|a i|a i|a i|a i f|a i f out|a i f out temp
                 |a i f out temp|a i f out temp r|a i f out|i f out|f out|e|[[out|]|e]];
    cbn [holds] in *; try exact Hh.
  - destruct Hh as (k & k' & -> & -> & -> & Hbuf).
    eexists _, _. repeat split; try reflexivity.
    intros aud Haud. destruct (Hfs k' ltac:(clear; set_solver)) as [_ ->]. auto.
  - destruct Hh as (k & k' & -> & -> & -> & Hout).
    eexists _, _. repeat split; try reflexivity.
    intros Hr. destruct (Hfs k ltac:(clear; set_solver)) as [-> _]. auto.
  - destruct Hh as (k & k' & -> & -> & Hout).
    eexists _, _. repeat split; try reflexivity.
    destruct (Hfs k ltac:(clear; set_solver)) as [-> _]. exact Hout.
  - destruct Hh as (k & k' & -> & -> & Hout).
    eexists _, _. repeat split; try reflexivity.
    destruct (Hfs k ltac:(clear; set_solver)) as [-> _]. exact Hout.
  - destruct Hh as (k & k' & -> & -> & Hout).
    eexists _, _. repeat split; try reflexivity.
    destruct (Hfs k ltac:(clear; set_solver)) as [-> _]. exact Hout.
  - destruct Hh as (k & k' & f & -> & -> & Hout).
    eexists _, _, _. repeat split; try reflexivity.
    destruct (Hfs k ltac:(clear; set_solver)) as [-> _]. exact Hout.
Qed.

Lemma apart_at_start (s : State) : apart E (Start, Start, s).
Proof.
  exists [], []. cbn [holds].
  repeat split; try reflexivity; intros k Hk; apply elem_of_nil in Hk; destruct Hk.
Qed.

End OneStep.

Section TwoCalls.

Variable E : Env.
Variables audio_path image_path audio_path' image_path' : string.
Hypothesis collision_free : Inj (=) (=) (uuid_stream E).

Lemma names_of_other_positions (ks ks' : list nat) (j : nat) :
  (forall k, k ∈ ks -> k ∈ ks' -> False) ->
  j ∈ ks' ->
  forall k, k ∈ ks ->
    (out_name E j <> out_name E k /\ out_name E j <> temp_name E k) /\
    (temp_name E j <> out_name E k /\ temp_name E j <> temp_name E k).
Proof.
  intros Hdisj Hj k Hk.
  assert (Hne : j <> k) by (intros ->; eauto).
  repeat split.
  - intros Heq. apply Hne, collision_free, out_name_inj, Heq.
  - apply out_name_not_temp.
  - apply not_eq_sym, out_name_not_temp.
  - intros Heq. apply Hne, collision_free, temp_name_inj, Heq.
Qed.

(** One step of one call keeps what both calls hold, at different
    positions of the stream. *)
Lemma step_keeps_apart (a i : string) (st st' : stage) (s : State)
    (ks ks' : list nat) :
  holds E s st ks -> holds E s st' ks' ->
  (forall k, k ∈ ks -> (k < uuid_drawn s)%nat) ->
  (forall k, k ∈ ks' -> (k < uuid_drawn s)%nat) ->
  (forall k, k ∈ ks -> k ∈ ks' -> False) ->
  exists ks1,
    holds E (snd (step E a i st s)) (fst (step E a i st s)) ks1 /\
    holds E (snd (step E a i st s)) st' ks' /\
    (forall k, k ∈ ks1 -> (k < uuid_drawn (snd (step E a i st s)))%nat) /\
    (forall k, k ∈ ks' -> (k < uuid_drawn (snd (step E a i st s)))%nat) /\
    (forall k, k ∈ ks1 -> k ∈ ks' -> False).
Proof.
  intros Hh Hh' Hlt Hlt' Hdisj.
  destruct (step_effect E a i st s ks Hh) as (ks1 & Hh1 & Hdraw & Hframe).
  exists ks1. split; [exact Hh1|]. split.
  { apply (holds_stable E st' s _ ks' Hh'). intros j Hj.
    split; apply Hframe; intros k Hk;
      apply (names_of_other_positions ks ks' j Hdisj Hj k Hk). }
  destruct Hdraw as [[-> ->] | [-> ->]].
  - auto.
  - split; [|split].
    + intros k [Hk | ->%list_elem_of_singleton]%elem_of_app; [apply Hlt in Hk|]; lia.
    + intros k Hk. apply Hlt' in Hk. lia.
    + intros k [Hk | ->%list_elem_of_singleton]%elem_of_app Hk'; [eauto|].
      apply Hlt' in Hk'. lia.
Qed.

Lemma step_of_keeps_apart (first : bool) (c : stage * stage * State) :
  apart E c ->
  apart E (step_of E audio_path image_path audio_path' image_path' first c).
Proof.
  destruct c as [[st st'] s]. intros (ks & ks' & Hh & Hh' & Hlt & Hlt' & Hdisj).
  unfold step_of. destruct first.
  - destruct (step_keeps_apart audio_path image_path st st' s ks ks'
                Hh Hh' Hlt Hlt' Hdisj) as (ks1 & H1 & H2 & H3 & H4 & H5).
    destruct (step E audio_path image_path st s) as [st1 s1].
    exists ks1, ks'. auto.
  - destruct (step_keeps_apart audio_path' image_path' st' st s ks' ks
                Hh' Hh Hlt' Hlt (fun k H1 H2 => Hdisj k H2 H1))
      as (ks1 & H1 & H2 & H3 & H4 & H5).
    destruct (step E audio_path' image_path' st' s) as [st1 s1].
    exists ks, ks1. repeat split; eauto.
Qed.

Lemma interleave_keeps_apart (schedule : list bool) (c : stage * stage * State) :
  apart E c ->
  apart E (interleave E audio_path image_path audio_path' image_path' schedule c).
Proof.
  revert c. induction schedule as [|first schedule IH]; intros c Hc; [exact Hc|].
  apply IH, step_of_keeps_apart, Hc.
Qed.

End TwoCalls.

(** * Names and files of a call *)

Section Names.

Variable E : Env.

(** C7: every call names its output [<temp-dir>/video_<uuid>.mp4] and its
    buffer file [temp-audio-<uuid>.m4a], each with an identifier of its
    own.  With identifiers that never repeat, two calls that return a path,
    whatever their inputs, return different paths and use different
    buffer files, and neither overwrites a file of the other: when the
    second call starts after the first has returned; when the two calls
    run at the same time, in every order of their steps, where at the end
    each output file holds the encoding of its own call's request; and
    while a call is about to encode, its buffer file holds its own
    audio. *)
Theorem output_paths_distinct (audio_path image_path audio_path' image_path' : string) :
  Inj (=) (=) (uuid_stream E) ->
  (forall (s s' : State) (p p' : string),
     fst (create_video_from_audio_and_image E audio_path image_path s) = Ret (Some p) ->
     (uuid_drawn (snd (create_video_from_audio_and_image E audio_path image_path s))
      <= uuid_drawn s')%nat ->
     fst (create_video_from_audio_and_image E audio_path' image_path' s') = Ret (Some p') ->
     exists u v u' v' r r',
       p = os_path_join (tempdir E) ("video_" ++ u ++ ".mp4") /\
       p' = os_path_join (tempdir E) ("video_" ++ u' ++ ".mp4") /\
       p <> p' /\
       fs (snd (create_video_from_audio_and_image E audio_path image_path s)) !! p
       = Some (encoder E r) /\
       fs (snd (create_video_from_audio_and_image E audio_path' image_path' s')) !! p'
       = Some (encoder E r') /\
       enc_filename r = p /\
       enc_filename r' = p' /\
       enc_temp_audiofile r = "temp-audio-" ++ v ++ ".m4a" /\
       enc_temp_audiofile r' = "temp-audio-" ++ v' ++ ".m4a" /\
       enc_temp_audiofile r <> enc_temp_audiofile r' /\
       fs (snd (create_video_from_audio_and_image E audio_path' image_path' s')) !! p
       = fs s' !! p /\
       fs (snd (create_video_from_audio_and_image E audio_path' image_path' s'))
         !! enc_temp_audiofile r
       = fs s' !! enc_temp_audiofile r) /\
  (forall (schedule : list bool) (s s' : State) (p p' : string),
     interleave E audio_path image_path audio_path' image_path' schedule (Start, Start, s)
     = (Finished (Ret (Some p)), Finished (Ret (Some p')), s') ->
     exists u v u' v' r r',
       p = os_path_join (tempdir E) ("video_" ++ u ++ ".mp4") /\
       p' = os_path_join (tempdir E) ("video_" ++ u' ++ ".mp4") /\
       p <> p' /\
       fs s' !! p = Some (encoder E r) /\
       fs s' !! p' = Some (encoder E r') /\
       enc_filename r = p /\
       enc_filename r' = p' /\
       enc_temp_audiofile r = "temp-audio-" ++ v ++ ".m4a" /\
       enc_temp_audiofile r' = "temp-audio-" ++ v' ++ ".m4a" /\
       enc_temp_audiofile r <> enc_temp_audiofile r') /\
  (forall (schedule : list bool) (s s' : State) (st st' : stage)
          (a : AudioClip) (i f : VideoClip) (out temp : string) (aud : AudioClip),
     interleave E audio_path image_path audio_path' image_path' schedule (Start, Start, s)
     = (st, st', s') ->
     st = Buffered a i f out temp \/ st' = Buffered a i f out temp ->
     clip_audio f = Some aud ->
     fs s' !! temp = Some (mux_buffer E aud)).
Proof.
  intros Hinj. split; [|split].
  - intros s s' p p' Hret Hlater Hret'.
    destruct (create_video_returns _ _ _ _ _ Hret) as (d & w & h & _ & _ & -> & Hs).
    destruct (create_video_returns _ _ _ _ _ Hret') as (d' & w' & h' & _ & _ & -> & Hs').
    rewrite Hs in Hlater. cbn [uuid_drawn state_at_return] in Hlater.
    rewrite Hs, Hs'.
    assert (Hne : output_path_of E s <> output_path_of E s').
    { intros Heq. apply output_path_inj, Hinj in Heq. lia. }
    assert (Hne' : temp_audiofile_of E s <> temp_audiofile_of E s').
    { intros Heq. apply temp_audiofile_inj, Hinj in Heq. lia. }
    exists (uuid_stream E (uuid_drawn s)), (uuid_stream E (S (uuid_drawn s))),
           (uuid_stream E (uuid_drawn s')), (uuid_stream E (S (uuid_drawn s'))),
           (request_of E s audio_path image_path d w h),
           (request_of E s' audio_path' image_path' d' w' h').
    split; [reflexivity|]. split; [reflexivity|]. split; [exact Hne|].
    split; [apply output_at_return|]. split; [apply output_at_return|].
    split; [reflexivity|]. split; [reflexivity|].
    split; [reflexivity|]. split; [reflexivity|]. split; [exact Hne'|].
    rewrite <- Hs'. split; apply create_video_frame; auto.
    + apply output_path_not_temp.
    + apply not_eq_sym, output_path_not_temp.
  - intros schedule s s' p p' Hrun.
    pose proof (interleave_keeps_apart E audio_path image_path audio_path' image_path'
                  Hinj schedule _ (apart_at_start E s)) as Hap.
    rewrite Hrun in Hap.
    destruct Hap as (ks & ks' & (k & k' & f & -> & -> & Hout)
                     & (j & j' & f' & -> & -> & Hout') & _ & _ & Hdisj).
    exists (uuid_stream E k), (uuid_stream E k'), (uuid_stream E j), (uuid_stream E j'),
           (request_at f (out_name E k) (temp_name E k')),
           (request_at f' (out_name E j) (temp_name E j')).
    split; [reflexivity|]. split; [reflexivity|].
    split.
    { intros Heq. apply out_name_inj, Hinj in Heq. subst j.
      apply (Hdisj k); apply list_elem_of_here. }
    split; [exact Hout|]. split; [exact Hout'|].
    split; [reflexivity|]. split; [reflexivity|].
    split; [reflexivity|]. split; [reflexivity|].
    cbn [enc_temp_audiofile request_at].
    intros Heq. apply temp_name_inj, Hinj in Heq. subst j'.
    apply (Hdisj k'); apply list_elem_of_further, list_elem_of_here.
  - intros schedule s s' st st' a i f out temp aud Hrun Hst Haud.
    pose proof (interleave_keeps_apart E audio_path image_path audio_path' image_path'
                  Hinj schedule _ (apart_at_start E s)) as Hap.
    rewrite Hrun in Hap.
    destruct Hap as (ks & ks' & Hh & Hh' & _).
    destruct Hst as [-> | ->].
    + destruct Hh as (k & k' & _ & _ & _ & Hbuf). auto.
    + destruct Hh' as (k & k' & _ & _ & _ & Hbuf). auto.
Qed.

Variables audio_path image_path : string.
Variable s : State.

(** C8: if no file named [temp-audio-<u>.m4a] exists before the call, none
    exists after it, whatever the outcome; and the call has either changed
    no file at all or both inputs decoded, so that an image that does not
    decode leaves nothing behind. *)
Theorem temp_audiofile_removed (u : string) :
  fs s !! ("temp-audio-" ++ u ++ ".m4a") = None ->
  fs (snd (create_video_from_audio_and_image E audio_path image_path s))
    !! ("temp-audio-" ++ u ++ ".m4a") = None /\
  (fs (snd (create_video_from_audio_and_image E audio_path image_path s)) = fs s \/
   exists d w h, decodes E s audio_path image_path d w h).
Proof.
  intros Hfresh. split.
  - destruct (decide ("temp-audio-" ++ u ++ ".m4a" = temp_audiofile_of E s)) as [Heq|Hne].
    + rewrite Heq in *.
      destruct (create_video_temp_gone E audio_path image_path s) as [-> | ->];
        [exact Hfresh | reflexivity].
    + rewrite create_video_frame; [exact Hfresh | | exact Hne].
      intros Heq. symmetry in Heq. revert Heq.
      rewrite <- append_assoc. apply output_path_not_m4a.
  - destruct (decodes_dec E audio_path image_path s) as [Hdec|Hno]; [right; exact Hdec|].
    left. apply create_video_writes_nothing. exact Hno.
Qed.

(** C9: when the two names the call generates are fresh, that is, name no
    file that exists, the files at [audio_path] and [image_path] are after
    the call what they were before it, and a returned path names a file
    that exists. *)
Theorem inputs_read_only :
  fs s !! output_path_of E s = None ->
  fs s !! temp_audiofile_of E s = None ->
  fs (snd (create_video_from_audio_and_image E audio_path image_path s)) !! audio_path
  = fs s !! audio_path /\
  fs (snd (create_video_from_audio_and_image E audio_path image_path s)) !! image_path
  = fs s !! image_path /\
  match fst (create_video_from_audio_and_image E audio_path image_path s) with
  | Ret (Some p) =>
      is_Some (fs (snd (create_video_from_audio_and_image E audio_path image_path s)) !! p)
  | _ => True
  end.
Proof.
  intros Hout Htmp.
  assert (Hkeep : forall path, is_Some (fs s !! path) ->
    fs (snd (create_video_from_audio_and_image E audio_path image_path s)) !! path
    = fs s !! path).
  { intros path [x Hx]. apply create_video_frame; intros ->; congruence. }
  assert (Hinput : forall path,
    (fs s !! path = None -> forall d w h, ~ decodes E s audio_path image_path d w h) ->
    fs (snd (create_video_from_audio_and_image E audio_path image_path s)) !! path
    = fs s !! path).
  { intros path Hmissing. destruct (fs s !! path) as [x|] eqn:Hx.
    - rewrite <- Hx. apply Hkeep. rewrite Hx. eauto.
    - rewrite create_video_writes_nothing by auto. exact Hx. }
  split; [|split].
  - apply Hinput. intros Hnone d w h [(a & Ha & _) _]. congruence.
  - apply Hinput. intros Hnone d w h [_ (i & Hi & _)]. congruence.
  - destruct (fst (create_video_from_audio_and_image E audio_path image_path s))
      as [[p|]|e] eqn:Hret; [|exact I..].
    destruct (create_video_returns _ _ _ _ _ Hret) as (d & w & h & _ & _ & -> & ->).
    rewrite output_at_return. eauto.
Qed.

End Names.

(** * Sample runs *)

Section Samples.

(** A recording of 10.03 seconds and an 800 by 600 picture, on MoviePy 2:
    240 frames. *)
Lemma video_track_lasts_as_audio_witness :
  exists r W H n,
    fs (snd (create_video_from_audio_and_image framed_env sample_audio sample_image sample_state))
      !! sample_output = Some (encoder framed_env r) /\
    clip_picture (enc_clip r) = Scaled (Still sample_image 800 600) W H /\
    clip_duration (enc_clip r) = 1003 # 100 /\
    clip_audio (enc_clip r) = Some (audio_clip_of sample_state sample_audio (1003 # 100)) /\
    audio_duration (audio_clip_of sample_state sample_audio (1003 # 100)) = 1003 # 100 /\
    enc_fps r = 24 /\
    frames_in_framed (encoder framed_env r) = Some n /\
    ((1003 # 100) - 1 / 24 < inject_Z n / 24)%Q /\
    (inject_Z n / 24 < (1003 # 100) + 1 / 24)%Q.
Proof.
  apply (video_track_lasts_as_audio framed_env sample_audio sample_image
           sample_state frames_in_framed (1003 # 100) 800 600 sample_output).
  - intros r. unfold frames_in_framed. cbn [encoder framed_env moviepy2].
    unfold framed_encoder.
    rewrite length_app, repeat_length, Nat2Z.inj_add, Z2Nat.id by apply Z.le_max_l.
    f_equal. cbn [length mp4_bytes]. lia.
  - split; [exists wav_bytes | exists png_bytes]; split; vm_compute; reflexivity.
  - vm_compute. reflexivity.
Defined.

Example sample_frames :
  frames_written true
    (request_of framed_env sample_state sample_audio sample_image (1003 # 100) 800 600) = 240 /\
  frames_written false
    (request_of framed_env sample_state sample_audio sample_image (1003 # 100) 800 600) = 241.
Proof. split; reflexivity. Qed.

(** The scenario of the spec: 800 by 600 becomes 1440 by 1080. *)
Lemma scaled_frame_geometry_witness :
  exists r W,
    fs (snd (create_video_from_audio_and_image sample_env sample_audio sample_image sample_state))
      !! sample_output = Some (encoder sample_env r) /\
    clip_picture (enc_clip r) = Scaled (Still sample_image 800 600) W 1080 /\
    clip_size (enc_clip r) = (W, 1080) /\
    W = round_even (800 * 1080) 600 /\
    Z.even W = true /\
    Z.abs (W * 600 - 800 * 1080) <= 600 /\
    (forall k, Z.abs (W * 600 - 800 * 1080) <= Z.abs (2 * k * 600 - 800 * 1080)).
Proof.
  apply (scaled_frame_geometry sample_env sample_audio sample_image
           sample_state (10 # 1) 800 600 sample_output).
  - split; [exists wav_bytes | exists png_bytes]; split; vm_compute; reflexivity.
  - lia.
  - vm_compute. reflexivity.
Defined.

Example sample_width : round_even (800 * 1080) 600 = 1440.
Proof. reflexivity. Qed.

Lemma fixed_encoding_parameters_witness :
  exists r stem,
    fs (snd (create_video_from_audio_and_image sample_env sample_audio sample_image sample_state))
      !! sample_output = Some (encoder sample_env r) /\
    enc_filename r = sample_output /\
    sample_output = stem ++ ".mp4" /\
    enc_fps r = 24 /\
    enc_codec r = "libx264" /\
    enc_audio_codec r = "aac".
Proof.
  apply (fixed_encoding_parameters sample_env sample_audio sample_image
           sample_state sample_output).
  vm_compute. reflexivity.
Defined.

(** C4, against the claim as stated: the encoder fails on a full disk
    after it has started the output; the caller gets [None], no exception,
    and the started file is still at the generated path. *)
Lemma partial_output_left_after_failed_encode :
  fst (try_block full_disk_env sample_audio sample_image sample_state) = Raise disk_full /\
  fst (create_video_from_audio_and_image full_disk_env sample_audio sample_image sample_state)
  = Ret None /\
  fs sample_state !! sample_output = None /\
  fs (snd (create_video_from_audio_and_image full_disk_env sample_audio sample_image sample_state))
    !! sample_output = Some cut_mp4_bytes.
Proof. vm_compute. repeat split; reflexivity. Qed.

Lemma failure_reported_and_None_witness :
  fst (create_video_from_audio_and_image full_disk_env sample_audio sample_image sample_state)
  = Ret None /\
  ui (snd (create_video_from_audio_and_image full_disk_env sample_audio sample_image sample_state))
  = (ui (snd (try_block full_disk_env sample_audio sample_image sample_state))
       ++ [ErrorBox ("Video creation failed: " ++ str disk_full)])%list.
Proof.
  apply (failure_reported_and_None full_disk_env sample_audio sample_image
           sample_state disk_full).
  - vm_compute. reflexivity.
  - reflexivity.
  - reflexivity.
Defined.



(** C6, at the failing input: the recording decodes, the image does not.
    No handle is open before the call; after it has returned [None] the
    handle of the audio clip is still open.  A run to the last line closes
    it ([handles_released_at_return]). *)
Theorem audio_handle_left_open_on_failure :
  open_handles sample_state = ∅ /\
  fst (create_video_from_audio_and_image sample_env sample_audio
         "/tmp/uploaded_image_notes.txt" sample_state) = Ret None /\
  elements (open_handles (snd (create_video_from_audio_and_image sample_env sample_audio
                                 "/tmp/uploaded_image_notes.txt" sample_state)))
  = [0%nat].
Proof. vm_compute. repeat split; reflexivity. Qed.

Lemma serial_uuids_inj : Inj (=) (=) serial_uuids.
Proof.
  intros m n Heq. unfold serial_uuids in Heq.
  apply append_inv_head in Heq. exact (inj pretty m n Heq).
Qed.

(** Two calls with the same inputs: one after the other; step by step in
    turns; and the first call at the encoder while the second has not
    started. *)
Lemma output_paths_distinct_witness :
  (exists u v u' v' r r',
     "/tmp/video_6fa1c2d0-5b7e-4c11-9a3e-0.mp4"
     = os_path_join (tempdir serial_env) ("video_" ++ u ++ ".mp4") /\
     "/tmp/video_6fa1c2d0-5b7e-4c11-9a3e-2.mp4"
     = os_path_join (tempdir serial_env) ("video_" ++ u' ++ ".mp4") /\
     "/tmp/video_6fa1c2d0-5b7e-4c11-9a3e-0.mp4" <> "/tmp/video_6fa1c2d0-5b7e-4c11-9a3e-2.mp4" /\
     fs (snd (create_video_from_audio_and_image serial_env sample_audio sample_image sample_state))
       !! "/tmp/video_6fa1c2d0-5b7e-4c11-9a3e-0.mp4"
     = Some (encoder serial_env r) /\
     fs (snd (create_video_from_audio_and_image serial_env sample_audio sample_image
                (snd (create_video_from_audio_and_image serial_env sample_audio sample_image
                        sample_state))))
       !! "/tmp/video_6fa1c2d0-5b7e-4c11-9a3e-2.mp4"
     = Some (encoder serial_env r') /\
     enc_filename r = "/tmp/video_6fa1c2d0-5b7e-4c11-9a3e-0.mp4" /\
     enc_filename r' = "/tmp/video_6fa1c2d0-5b7e-4c11-9a3e-2.mp4" /\
     enc_temp_audiofile r = "temp-audio-" ++ v ++ ".m4a" /\
     enc_temp_audiofile r' = "temp-audio-" ++ v' ++ ".m4a" /\
     enc_temp_audiofile r <> enc_temp_audiofile r' /\
     fs (snd (create_video_from_audio_and_image serial_env sample_audio sample_image
                (snd (create_video_from_audio_and_image serial_env sample_audio sample_image
                        sample_state))))
       !! "/tmp/video_6fa1c2d0-5b7e-4c11-9a3e-0.mp4"
     = fs (snd (create_video_from_audio_and_image serial_env sample_audio sample_image
                  sample_state))
         !! "/tmp/video_6fa1c2d0-5b7e-4c11-9a3e-0.mp4" /\
     fs (snd (create_video_from_audio_and_image serial_env sample_audio sample_image
                (snd (create_video_from_audio_and_image serial_env sample_audio sample_image
                        sample_state))))
       !! enc_temp_audiofile r
     = fs (snd (create_video_from_audio_and_image serial_env sample_audio sample_image
                  sample_state))
         !! enc_temp_audiofile r) /\
  (exists u v u' v' r r',
     "/tmp/video_6fa1c2d0-5b7e-4c11-9a3e-0.mp4"
     = os_path_join (tempdir serial_env) ("video_" ++ u ++ ".mp4") /\
     "/tmp/video_6fa1c2d0-5b7e-4c11-9a3e-1.mp4"
     = os_path_join (tempdir serial_env) ("video_" ++ u' ++ ".mp4") /\
     "/tmp/video_6fa1c2d0-5b7e-4c11-9a3e-0.mp4" <> "/tmp/video_6fa1c2d0-5b7e-4c11-9a3e-1.mp4" /\
     fs (snd (interleave serial_env sample_audio sample_image sample_audio sample_image
                taking_turns (Start, Start, sample_state)))
       !! "/tmp/video_6fa1c2d0-5b7e-4c11-9a3e-0.mp4"
     = Some (encoder serial_env r) /\
     fs (snd (interleave serial_env sample_audio sample_image sample_audio sample_image
                taking_turns (Start, Start, sample_state)))
       !! "/tmp/video_6fa1c2d0-5b7e-4c11-9a3e-1.mp4"
     = Some (encoder serial_env r') /\
     enc_filename r = "/tmp/video_6fa1c2d0-5b7e-4c11-9a3e-0.mp4" /\
     enc_filename r' = "/tmp/video_6fa1c2d0-5b7e-4c11-9a3e-1.mp4" /\
     enc_temp_audiofile r = "temp-audio-" ++ v ++ ".m4a" /\
     enc_temp_audiofile r' = "temp-audio-" ++ v' ++ ".m4a" /\
     enc_temp_audiofile r <> enc_temp_audiofile r') /\
  fs (snd (interleave serial_env sample_audio sample_image sample_audio sample_image
             (repeat true 8) (Start, Start, sample_state)))
    !! "temp-audio-6fa1c2d0-5b7e-4c11-9a3e-1.m4a"
  = Some m4a_bytes.
Proof.
  destruct (output_paths_distinct serial_env sample_audio sample_image
              sample_audio sample_image serial_uuids_inj) as (Hseq & Hcon & Hbuf).
  split; [|split].
  - apply (Hseq sample_state
             (snd (create_video_from_audio_and_image serial_env sample_audio sample_image
                     sample_state))).
    + vm_compute. reflexivity.
    + lia.
    + vm_compute. reflexivity.
  - apply (Hcon taking_turns sample_state). vm_compute. reflexivity.
  - eapply (Hbuf (repeat true 8) sample_state).
    + vm_compute. reflexivity.
    + left. reflexivity.
    + reflexivity.
Defined.

Lemma temp_audiofile_removed_witness :
  fs (snd (create_video_from_audio_and_image sample_env sample_audio sample_image sample_state))
    !! ("temp-audio-" ++ sample_uuids 1 ++ ".m4a") = None /\
  (fs (snd (create_video_from_audio_and_image sample_env sample_audio sample_image sample_state))
   = fs sample_state \/
   exists d w h, decodes sample_env sample_state sample_audio sample_image d w h).
Proof.
  apply (temp_audiofile_removed sample_env sample_audio sample_image
           sample_state (sample_uuids 1)).
  vm_compute. reflexivity.
Defined.

Lemma inputs_read_only_witness :
  fs (snd (create_video_from_audio_and_image sample_env sample_audio sample_image sample_state))
    !! sample_audio = fs sample_state !! sample_audio /\
  fs (snd (create_video_from_audio_and_image sample_env sample_audio sample_image sample_state))
    !! sample_image = fs sample_state !! sample_image /\
  match fst (create_video_from_audio_and_image sample_env sample_audio sample_image sample_state) with
  | Ret (Some p) =>
      is_Some (fs (snd (create_video_from_audio_and_image sample_env sample_audio sample_image sample_state)) !! p)
  | _ => True
  end.
Proof.
  apply (inputs_read_only sample_env sample_audio sample_image sample_state).
  - vm_compute. reflexivity.
  - vm_compute. reflexivity.
Defined.

(** C10, against the claim as stated: the user interrupts the encoder;
    [KeyboardInterrupt] does not derive from [Exception], the handler does
    not catch it, and the call raises it. *)
Lemma keyboard_interrupt_propagates :
  is_Exception (Exn KeyboardInterrupt "") = false /\
  fst (create_video_from_audio_and_image ctrl_c_env sample_audio sample_image sample_state)
  = Raise (Exn KeyboardInterrupt "").
Proof. vm_compute. split; reflexivity. Qed.

End Samples.
